(** * Format selection, metadata lists and relay progress of the video downloader

    A shallow embedding of the two route handlers (the download route [GET]
    and the metadata route [POST]) and of the download loop of the client
    page ([handleDownload]), followed by the properties of the selection
    policy, of the response framing and of the progress display. *)

From Stdlib Require Import ZArith List String Ascii Bool Lia Floats.
From Stdlib Require Import DecimalString DecimalPos.
Import ListNotations.

Local Open Scope Z_scope.
Local Open Scope bool_scope.

(* ================================================================== *)
(** ** The JavaScript values and built-ins the handlers rely on        *)
(* ================================================================== *)

Module JS.

(** Numbers.  The handlers only compute with integers (itags, bit rates,
    parsed quality labels) and with the not-a-number value that [Number]
    yields for a string that is no numeric literal.  Integers up to [2^53]
    in magnitude are exact as doubles. *)
Inductive num : Type :=
| Int (z : Z)
| NaN.

Definition MAX_EXACT : Z := 2 ^ 53.

(** [a - b] *)
Definition sub (a b : num) : num :=
  match a, b with
  | Int x, Int y => Int (x - y)
  | _, _ => NaN
  end.

(** [a === b] on numbers: NaN equals nothing. *)
Definition strict_eq (a b : num) : bool :=
  match a, b with
  | Int x, Int y => x =? y
  | _, _ => false
  end.

(** [a < b] and [a <= b] on numbers: false as soon as one side is NaN. *)
Definition ltb (a b : num) : bool :=
  match a, b with
  | Int x, Int y => x <? y
  | _, _ => false
  end.

Definition leb (a b : num) : bool :=
  match a, b with
  | Int x, Int y => x <=? y
  | _, _ => false
  end.

(** Truthiness of a number ([0] and [NaN] are falsy) and of a string (the
    empty string is falsy). *)
Definition truthy (n : num) : bool :=
  match n with
  | Int z => negb (z =? 0)
  | NaN => false
  end.

Definition truthy_str (s : string) : bool :=
  match s with
  | EmptyString => false
  | String _ _ => true
  end.

(** The double quote character, as a string. *)
Definition dquote : string := String (ascii_of_nat 34) EmptyString.

(** [a ?? b] *)
Definition orElse {A : Type} (a b : option A) : option A :=
  match a with
  | Some x => Some x
  | None => b
  end.

Definition is_digit (c : ascii) : bool :=
  let n := nat_of_ascii c in ((48 <=? n) && (n <=? 57))%nat.

Definition digit_value (c : ascii) : Z := Z.of_nat (nat_of_ascii c) - 48.

Fixpoint digits_value (acc : Z) (s : string) : option Z :=
  match s with
  | EmptyString => Some acc
  | String c s' =>
      if is_digit c then digits_value (10 * acc + digit_value c) s' else None
  end.

(** [Number(s)] for a string [s].  A string of decimal digits is read as its
    value, the empty string as [0].  Every other string is taken to [NaN]:
    that is JavaScript's answer for a string that is no numeric literal; the
    literals with a sign, a fraction, an exponent, a radix prefix or white
    space around them, and the digit strings above [MAX_EXACT] (which a
    double rounds), are outside this model, and the statements below that
    speak of a parsed value ask for an [Int]. *)
Definition Number_of_string (s : string) : num :=
  match digits_value 0 s with
  | Some v => if v <=? MAX_EXACT then Int v else NaN
  | None => NaN
  end.

(** [.] of a regular expression matches every character but a line
    terminator (of the two-byte terminators U+2028 and U+2029 nothing is
    said: strings here are strings of one-byte characters). *)
Definition is_line_terminator (c : ascii) : bool :=
  (c =? "010")%char || (c =? "013")%char.

(** What is left of [s] once the greedy [.*] has eaten its share. *)
Fixpoint after_dot_star (s : string) : string :=
  match s with
  | EmptyString => EmptyString
  | String c s' => if is_line_terminator c then s else after_dot_star s'
  end.

(** [s.replace(/p.*/, '')]: the first [p] and what follows it on its line
    are removed; a string without [p] is returned as it is. *)
Fixpoint replace_p_rest (s : string) : string :=
  match s with
  | EmptyString => EmptyString
  | String c s' =>
      if (c =? "p")%char then after_dot_star s'
      else String c (replace_p_rest s')
  end.

(** [s.includes(needle)] *)
Fixpoint includes (s needle : string) : bool :=
  String.prefix needle s
  || match s with
     | EmptyString => false
     | String _ s' => includes s' needle
     end.

(** [s.split(';')[0]]: the part of [s] before its first [;]. *)
Fixpoint split_semicolon_0 (s : string) : string :=
  match s with
  | EmptyString => EmptyString
  | String c s' =>
      if (c =? ";")%char then EmptyString else String c (split_semicolon_0 s')
  end.

(** [Array.prototype.sort(comparefn)].  The sort is stable, and an element
    moves behind another one only when [comparefn] is positive on them; a
    [NaN] from [comparefn] counts as [0].  For a comparison function that is
    consistent (as every difference of integer keys is) the result is fixed
    by these two facts, and the insertion sort below computes it.  With a
    [NaN] key the comparison is not consistent and the order is the
    engine's own: nothing is stated of the sorted list in that case. *)
Definition positive (n : num) : bool :=
  match n with
  | Int z => 0 <? z
  | NaN => false
  end.

Fixpoint insert {A : Type} (comparefn : A -> A -> num) (x : A) (l : list A)
  : list A :=
  match l with
  | [] => [x]
  | y :: l' =>
      if positive (comparefn x y) then y :: insert comparefn x l'
      else x :: l
  end.

Definition sort {A : Type} (comparefn : A -> A -> num) (l : list A) : list A :=
  fold_right (insert comparefn) [] l.

(** Doubles, for the one place where the program divides.  [of_Z] is the
    double nearest to an integer. *)
Definition of_Z (z : Z) : float :=
  SF2Prim (binary_normalize prec emax z 0 false).

(** [Math.round(x)] for a finite [x]: the nearest integer, a half going up.
    The value of a finite double is [m * 2^e]. *)
Definition Math_round (x : float) : Z :=
  match Prim2SF x with
  | S754_finite s m e =>
      let n := if s then Z.neg m else Z.pos m in
      if 0 <=? e then n * 2 ^ e
      else (2 * n + 2 ^ (- e)) / 2 ^ (1 - e)
  | _ => 0
  end.

End JS.

(* ================================================================== *)
(** ** Format descriptors, as the resolver library returns them        *)
(* ================================================================== *)

Record videoFormat : Type := {
  itag : Z;
  url : string;
  mimeType : option string;
  container : string;
  qualityLabel : option string;
  bitrate : option Z;
  audioBitrate : option Z;
  audioSampleRate : option string;
  contentLength : option string;
  hasVideo : bool;
  hasAudio : bool
}.

Record videoDetails_t : Type := {
  title : string;
  author_name : string;
  thumbnails : list string;
  lengthSeconds : string
}.

Record videoInfo : Type := {
  formats : list videoFormat;
  videoDetails : videoDetails_t
}.

(* ================================================================== *)
(** ** The selection policy of the download route                      *)
(* ================================================================== *)

(** [itagParam ? Number(itagParam) : undefined] *)
Definition targetItag (itagParam : option string) : option JS.num :=
  match itagParam with
  | Some s => if JS.truthy_str s then Some (JS.Number_of_string s) else None
  | None => None
  end.

(** [targetItag ? formats.find(format => format.itag === targetItag)
              : undefined] *)
Definition findByItag (fs : list videoFormat) (target : option JS.num)
  : option videoFormat :=
  match target with
  | Some n =>
      if JS.truthy n
      then find (fun format => JS.strict_eq (JS.Int (itag format)) n) fs
      else None
  | None => None
  end.

Definition isAudioOnly (format : videoFormat) : bool :=
  hasAudio format && negb (hasVideo format).

Definition isCombined (format : videoFormat) : bool :=
  hasVideo format && hasAudio format.

Definition isCombinedMp4 (format : videoFormat) : bool :=
  hasVideo format && hasAudio format && (container format =? "mp4")%string.

(** [Number(format.audioBitrate ?? 0)] *)
Definition audioRate (format : videoFormat) : JS.num :=
  JS.Int (match audioBitrate format with Some b => b | None => 0 end).

(** [Number((format.qualityLabel ?? '').replace(/p.*/, ''))] *)
Definition quality (format : videoFormat) : JS.num :=
  JS.Number_of_string
    (JS.replace_p_rest
       (match qualityLabel format with Some l => l | None => EmptyString end)).

Definition preferredAudio (fs : list videoFormat) : list videoFormat :=
  JS.sort (fun a b => JS.sub (audioRate b) (audioRate a))
          (filter isAudioOnly fs).

Definition preferredVideo (fs : list videoFormat) : list videoFormat :=
  JS.sort (fun a b => JS.sub (quality b) (quality a))
          (filter isCombinedMp4 fs).

(** The body of [if (!selectedFormat) { ... }]. *)
Definition defaultFormat (fs : list videoFormat) (type : string)
  : option videoFormat :=
  if (type =? "audio")%string
  then JS.orElse (hd_error (preferredAudio fs)) (find isAudioOnly fs)
  else JS.orElse (hd_error (preferredVideo fs)) (find isCombined fs).

(** The value of [selectedFormat] when the route tests it. *)
Definition selectedFormat (fs : list videoFormat) (type : string)
           (target : option JS.num) : option videoFormat :=
  JS.orElse (findByItag fs target) (defaultFormat fs type).

(* ================================================================== *)
(** ** The two route handlers                                          *)
(* ================================================================== *)

(** The resolver library ([ytdl-core]) as the routes use it.  [getInfo]
    answers [None] when its promise rejects, [ytdl] when the call throws. *)
Class Resolver : Type := {
  stream : Type;
  validateURL : string -> bool;
  getInfo : string -> option videoInfo;
  ytdl : string -> Z -> string -> option stream
}.

(** [toSafeFileName] of [@/lib/filename], whose text is not among the
    sources at hand: a parameter of the download route. *)
Class FileNames : Type := {
  toSafeFileName : string -> string
}.

(** The [filterFormats] of the resolver library for the two filters the
    metadata route names: a format needs a [url], and both tracks for
    ['videoandaudio'], an audio track and no video track for ['audioonly']. *)
Definition filterFormats (fs : list videoFormat) (filter_name : string)
  : list videoFormat :=
  if (filter_name =? "videoandaudio")%string
  then filter (fun format =>
                 JS.truthy_str (url format)
                 && (hasVideo format && hasAudio format)) fs
  else if (filter_name =? "audioonly")%string
  then filter (fun format =>
                 JS.truthy_str (url format)
                 && (negb (hasVideo format) && hasAudio format)) fs
  else [].

(** Calls into the resolver, in the order the handler makes them. *)
Inductive call : Type :=
| ValidateURL (u : string)
| GetInfo (u : string)
| OpenStream (u : string) (quality_itag : Z) (filter_name : string).

(** An entry of the lists the metadata route returns (the [Format] of the
    client page). *)
Record Format : Type := {
  f_itag : Z;
  f_qualityLabel : option string;
  f_container : option string;
  f_bitrate : option Z;
  f_audioSampleRate : option string
}.

Record VideoInfo : Type := {
  v_title : string;
  v_author : string;
  v_thumbnailUrl : option string;
  v_lengthSeconds : JS.num;
  mp4Formats : list Format;
  audioFormats : list Format
}.

Inductive body {R : Resolver} : Type :=
| ErrorJson (error : string)
| InfoJson (info : VideoInfo)
| Bytes (webStream : stream).

(** A response: its status, the headers the route sets itself, its body. *)
Record response {R : Resolver} : Type := {
  status : Z;
  headers : list (string * string);
  payload : body
}.

(** [searchParams.get(name)]: the first value given for the name.  It is
    also used below to read a header off the list of headers that a route
    has set itself, where every name is written once and as the route
    writes it. *)
Fixpoint get (params : list (string * string)) (name : string)
  : option string :=
  match params with
  | [] => None
  | (k, v) :: rest => if (k =? name)%string then Some v else get rest name
  end.

Definition inferExtension (mime : option string) : string :=
  match mime with
  | None => "bin"
  | Some m =>
      if negb (JS.truthy_str m) then "bin"
      else if JS.includes m "mp4" then "mp4"
      else if JS.includes m "webm" then "webm"
      else if JS.includes m "mpeg" then "mp3"
      else if JS.includes m "ogg" then "ogg"
      else "bin"
  end%string.

Definition errorResponse {R : Resolver} (code : Z) (message : string)
  : response :=
  {| status := code; headers := []; payload := ErrorJson message |}.

(** The headers of the streamed response. *)
Definition downloadHeaders (selected : videoFormat) (fileName : string)
  : list (string * string) :=
  [ ("Content-Type",
     match mimeType selected with
     | Some m => JS.split_semicolon_0 m
     | None => "application/octet-stream"
     end);
    ("Content-Disposition",
     "attachment; filename=" ++ JS.dquote ++ fileName ++ JS.dquote) ]%string
  ++ match contentLength selected with
     | Some len => if JS.truthy_str len then [("Content-Length", len)] else []
     | None => []
     end%string.

Section Routes.

Context {R : Resolver} {N : FileNames}.

Local Open Scope string_scope.

(** The download route once its three parameters are read: the url and the
    type as the query has them (absent or a string), and [targetItag], the
    number that [itagParam ? Number(itagParam) : undefined] has made of the
    itag.  It returns the response and the calls made to the resolver.  The
    headers are taken as the [Response] constructor accepts them; a header
    value it would refuse (one with a line feed inside) is not modelled. *)
Definition GET_parsed (url typeParam : option string)
           (target : option JS.num) : response * list call :=
  let type := match typeParam with Some t => t | None => "video" end in
  match url with
  | None => (errorResponse 400 "Please provide a valid YouTube URL.", [])
  | Some u =>
      if negb (validateURL u)
      then (errorResponse 400 "Please provide a valid YouTube URL.",
            [ValidateURL u])
      else
        match getInfo u with
        | None =>
            (errorResponse 500
               "Unable to process download. Please try again later.",
             [ValidateURL u; GetInfo u])
        | Some info =>
            match selectedFormat (formats info) type target with
            | None =>
                (errorResponse 404
                   "No matching format available for download.",
                 [ValidateURL u; GetInfo u])
            | Some selected =>
                let fileExtension := inferExtension (mimeType selected) in
                let safeTitle :=
                  toSafeFileName (title (videoDetails info)) in
                let fileName := safeTitle ++ "." ++ fileExtension in
                let filter_name :=
                  if (type =? "audio")%string
                  then "audioonly" else "videoandaudio" in
                let calls :=
                  [ValidateURL u; GetInfo u;
                   OpenStream u (itag selected) filter_name] in
                match ytdl u (itag selected) filter_name with
                | None =>
                    (errorResponse 500
                       "Unable to process download. Please try again later.",
                     calls)
                | Some downloadStream =>
                    ({| status := 200;
                        headers := downloadHeaders selected fileName;
                        payload := Bytes downloadStream |},
                     calls)
                end
            end
        end
  end.

(** The download route on the query of a request.  The itag is read by
    [targetItag], which is exact on the strings of decimal digits and on the
    absent and the empty parameter (see [JS.Number_of_string]); what is
    stated of the route for every id is stated of [GET_parsed]. *)
Definition GET (searchParams : list (string * string))
  : response * list call :=
  GET_parsed (get searchParams "url") (get searchParams "type")
             (targetItag (get searchParams "itag")).

(** What [await request.json()] and the destructuring of its [url] leave
    the metadata route with. *)
Inductive requestBody : Type :=
| NotJson                         (* [request.json()] rejects *)
| JsonNull                        (* [null]: the destructuring throws *)
| JsonValue (u : option string).  (* [url] if it is a string *)

Definition toVideoEntry (format : videoFormat) : Format :=
  {| f_itag := itag format;
     f_qualityLabel := qualityLabel format;
     f_container := Some (container format);
     f_bitrate := bitrate format;
     f_audioSampleRate := None |}.

Definition toAudioEntry (format : videoFormat) : Format :=
  {| f_itag := itag format;
     f_qualityLabel := None;
     f_container := Some (container format);
     f_bitrate := bitrate format;
     f_audioSampleRate := audioSampleRate format |}.

(** [format.mimeType?.includes(needle)], as the filter callback reads it. *)
Definition mimeIncludes (needle : string) (format : videoFormat) : bool :=
  match mimeType format with
  | Some m => JS.includes m needle
  | None => false
  end.

Definition mp4FormatsOf (fs : list videoFormat) : list Format :=
  map toVideoEntry
      (filter (mimeIncludes "mp4") (filterFormats fs "videoandaudio")).

Definition audioFormatsOf (fs : list videoFormat) : list Format :=
  map toAudioEntry
      (filter (mimeIncludes "audio") (filterFormats fs "audioonly")).

(** The metadata route. *)
Definition POST (json : requestBody) : response * list call :=
  match json with
  | NotJson | JsonNull =>
      (errorResponse 500
         "Unable to fetch video information. Please try again.", [])
  | JsonValue None =>
      (errorResponse 400 "Please provide a valid YouTube URL.", [])
  | JsonValue (Some u) =>
      if negb (validateURL u)
      then (errorResponse 400 "Please provide a valid YouTube URL.",
            [ValidateURL u])
      else
        match getInfo u with
        | None =>
            (errorResponse 500
               "Unable to fetch video information. Please try again.",
             [ValidateURL u; GetInfo u])
        | Some info =>
            let details := videoDetails info in
            ({| status := 200;
                headers := [];
                payload :=
                  InfoJson
                    {| v_title := title details;
                       v_author := author_name details;
                       v_thumbnailUrl :=
                         nth_error (thumbnails details)
                                   (List.length (thumbnails details) - 1)%nat;
                       v_lengthSeconds :=
                         JS.Number_of_string (lengthSeconds details);
                       mp4Formats := mp4FormatsOf (formats info);
                       audioFormats := audioFormatsOf (formats info) |} |},
             [ValidateURL u; GetInfo u])
        end
  end.

End Routes.


(* ================================================================== *)
(** ** The download loop of the client page                            *)
(* ================================================================== *)

Module Client.

(** The state the loop of [handleDownload] works on.  [progressLog] lists
    the values handed to [setProgress], oldest first; the progress bar shows
    the last one. *)
Record relay : Type := {
  chunks : list (list Byte.byte);
  received : Z;
  progressLog : list Z
}.

(** [Math.min(99, Math.round((received / contentLength) * 100))] *)
Definition percent (received_bytes contentLength : Z) : Z :=
  Z.min 99
    (JS.Math_round
       (JS.of_Z received_bytes / JS.of_Z contentLength * JS.of_Z 100)%float).

(** One turn of the loop for a read that is not [done]; [value] may be
    undefined. *)
Definition onRead (contentLength : JS.num) (st : relay)
           (value : option (list Byte.byte)) : relay :=
  match value with
  | None => st
  | Some v =>
      let received' := received st + Z.of_nat (List.length v) in
      {| chunks := chunks st ++ [v];
         received := received';
         progressLog :=
           match contentLength with
           | JS.Int total =>
               if JS.truthy contentLength
               then progressLog st ++ [percent received' total]
               else progressLog st
           | JS.NaN => progressLog st
           end |}
  end.

(** [Headers.get(name)]: header names are compared without regard to the
    case of their letters, and the values of a name that is given several
    times are joined by a comma and a space. *)
Definition lowerChar (c : ascii) : ascii :=
  let n := nat_of_ascii c in
  if ((65 <=? n) && (n <=? 90))%nat then ascii_of_nat (n + 32) else c.

Fixpoint lowerCase (s : string) : string :=
  match s with
  | EmptyString => EmptyString
  | String c s' => String (lowerChar c) (lowerCase s')
  end.

Fixpoint headerValues (responseHeaders : list (string * string))
         (name : string) : list string :=
  match responseHeaders with
  | [] => []
  | (k, v) :: rest =>
      if (lowerCase k =? lowerCase name)%string
      then v :: headerValues rest name
      else headerValues rest name
  end.

Definition headersGet (responseHeaders : list (string * string))
           (name : string) : option string :=
  match headerValues responseHeaders name with
  | [] => None
  | v :: more =>
      Some (fold_left (fun joined x => (joined ++ ", " ++ x)%string) more v)
  end.

(** [Number(response.headers.get('Content-Length') ?? '0')] *)
Definition contentLengthOf (responseHeaders : list (string * string))
  : JS.num :=
  JS.Number_of_string
    (match headersGet responseHeaders "Content-Length" with
     | Some len => len
     | None => "0"%string
     end).

(** [setProgress(0)], then the state of the loop after the reads [reads],
    none of them [done]. *)
Definition readLoop (contentLength : JS.num)
           (reads : list (option (list Byte.byte))) : relay :=
  fold_left (onRead contentLength) reads
            {| chunks := []; received := 0; progressLog := [0] |}.

(** The whole transfer: the loop runs until the reader is [done], the
    chunks become the blob that is saved, and [setProgress(100)] follows. *)
Definition handleDownload (responseHeaders : list (string * string))
           (reads : list (option (list Byte.byte))) : relay :=
  let st := readLoop (contentLengthOf responseHeaders) reads in
  {| chunks := chunks st;
     received := received st;
     progressLog := progressLog st ++ [100] |}.

(** The number of bytes in the reads that carry a value. *)
Definition bytesIn (reads : list (option (list Byte.byte))) : Z :=
  fold_right
    (fun value acc =>
       match value with
       | Some v => Z.of_nat (List.length v) + acc
       | None => acc
       end) 0 reads.

(** The formula in the words of the specification:
    [min(99, floor(received/total*100))]. *)
Definition floorPercent (received_bytes total : Z) : Z :=
  Z.min 99 (100 * received_bytes / total).

End Client.

(* ================================================================== *)
(** ** Sample data                                                     *)
(* ================================================================== *)

Module Sample.

Local Open Scope string_scope.

(** A MIME type with its codecs parameter. *)
Definition dquoted_mime (essence codecs : string) : string :=
  essence ++ "; codecs=" ++ JS.dquote ++ codecs ++ JS.dquote.

Definition combined (tag : Z) (label : string) (box : string) : videoFormat :=
  {| itag := tag;
     url := "https://media.example/" ++ label;
     mimeType := Some (dquoted_mime ("video/" ++ box) "avc1.64001F, mp4a.40.2");
     container := box;
     qualityLabel := Some label;
     bitrate := Some 2500000;
     audioBitrate := Some 128;
     audioSampleRate := Some "44100";
     contentLength := Some "1048576";
     hasVideo := true;
     hasAudio := true |}.

Definition audio (tag : Z) (rate : Z) (box : string) : videoFormat :=
  {| itag := tag;
     url := "https://media.example/audio";
     mimeType := Some (dquoted_mime ("audio/" ++ box) "opus");
     container := box;
     qualityLabel := None;
     bitrate := Some rate;
     audioBitrate := Some rate;
     audioSampleRate := Some "48000";
     contentLength := None;
     hasVideo := false;
     hasAudio := true |}.

(** The three labels and the three bit rates the specification names. *)
Definition f720 : videoFormat := combined 298 "720p60" "mp4".
Definition f1080 : videoFormat := combined 137 "1080p" "mp4".
Definition f480 : videoFormat := combined 135 "480p" "mp4".
Definition threeVideos : list videoFormat := [f720; f1080; f480].

Definition a128 : videoFormat := audio 140 128000 "mp4".
Definition a160 : videoFormat := audio 251 160000 "webm".
Definition a96 : videoFormat := audio 250 96000 "webm".
Definition threeAudios : list videoFormat := [a128; a160; a96].

Definition w360 : videoFormat := combined 43 "360p" "webm".

(** A format whose itag is [0], and the 3GPP format of the resolver's
    tables (itag 17), whose codecs carry the letters [mp4]. *)
Definition zeroTag : videoFormat := audio 0 64000 "webm".

Definition f3gpp : videoFormat :=
  {| itag := 17;
     url := "https://media.example/17";
     mimeType := Some (dquoted_mime "video/3gpp" "mp4v.20.3, mp4a.40.2");
     container := "3gpp";
     qualityLabel := Some "144p";
     bitrate := Some 80000;
     audioBitrate := Some 24;
     audioSampleRate := Some "22050";
     contentLength := Some "524288";
     hasVideo := true;
     hasAudio := true |}.

Definition details : videoDetails_t :=
  {| title := "Sample clip";
     author_name := "Sample author";
     thumbnails := ["https://img.example/small.jpg";
                    "https://img.example/large.jpg"];
     lengthSeconds := "212" |}.

Definition goodUrl : string := "https://www.youtube.com/watch?v=aqz-KE-bpKQ".

(** A resolver that knows one video, with the formats [fs]. *)
Definition resolver (fs : list videoFormat) : Resolver :=
  {| stream := list Byte.byte;
     validateURL := fun u => (u =? goodUrl);
     getInfo := fun u =>
       if (u =? goodUrl)
       then Some {| formats := fs; videoDetails := details |}
       else None;
     ytdl := fun _ _ _ => Some [] |}.

Definition names : FileNames := {| toSafeFileName := fun s => s |}.

End Sample.


(* ================================================================== *)
(** ** The state and the helpers of the client page                    *)
(* ================================================================== *)

Module Page.

Local Open Scope string_scope.

(** [n.toString()] for an integer [n]: its decimal digits, after a minus
    sign when it is negative. *)
Definition toString (n : Z) : string :=
  NilZero.string_of_int (Z.to_int n).

(** [s.padStart(2, '0')] *)
Definition padStart2 (s : string) : string :=
  match String.length s with
  | O => "00"
  | S O => "0" ++ s
  | _ => s
  end.

(** [formatDuration(seconds)].  For an integer, [Math.floor] changes
    nothing, [Math.floor(a / b)] is the floor of the quotient (exact on
    doubles up to [JS.MAX_EXACT]) and [%] is the remainder that takes the
    sign of the dividend.  For [NaN] every field is [NaN], the test
    [h > 0] fails and the two fields print as they are. *)
Definition formatDuration (seconds : JS.num) : string :=
  match seconds with
  | JS.NaN => "NaN:NaN"
  | JS.Int totalSeconds =>
      let h := totalSeconds / 3600 in
      let m := Z.rem totalSeconds 3600 / 60 in
      let s := Z.rem totalSeconds 60 in
      if (0 <? h)%Z
      then toString h ++ ":" ++ padStart2 (toString m)
                      ++ ":" ++ padStart2 (toString s)
      else toString m ++ ":" ++ padStart2 (toString s)
  end.

(** The memo [availableFormats]. *)
Definition availableFormats (info : option VideoInfo) (selectedType : string)
  : list Format :=
  match info with
  | None => []
  | Some i =>
      if selectedType =? "video" then mp4Formats i else audioFormats i
  end.

(** The memo [currentFormat]; [selectedItag] is a number or null. *)
Definition currentFormat (available : list Format)
           (selectedItag : option JS.num) : option Format :=
  match available with
  | [] => None
  | first :: _ =>
      match selectedItag with
      | Some n =>
          if JS.truthy n
          then JS.orElse
                 (find (fun format => JS.strict_eq (JS.Int (f_itag format)) n)
                       available)
                 (Some first)
          else Some first
      | None => Some first
      end
  end.

(** [list[0]?.itag] *)
Definition firstItag (l : list Format) : option JS.num :=
  match l with
  | [] => None
  | first :: _ => Some (JS.Int (f_itag first))
  end.

(** What [handleSubmit] hands to [setSelectedItag] once the metadata have
    arrived. *)
Definition loadedItag (data : VideoInfo) : option JS.num :=
  JS.orElse (firstItag (mp4Formats data)) (firstItag (audioFormats data)).

(** What the radio button of [type] hands to [setSelectedItag]. *)
Definition switchedItag (info : VideoInfo) (type : string) : option JS.num :=
  firstItag (availableFormats (Some info) type).

(** The query of the download request, [url] being the trimmed text of the
    input field. *)
Definition downloadParams (url selectedType : string)
           (current : option Format) : list (string * string) :=
  ([("url", url); ("type", selectedType)]
   ++ match current with
      | Some format =>
          if JS.truthy (JS.Int (f_itag format))
          then [("itag", toString (f_itag format))]
          else []
      | None => []
      end)%list.

End Page.

(* ================================================================== *)
(** ** Sorting by a numeric key, largest first                         *)
(* ================================================================== *)

Section SortByKey.

Variable A : Type.
Variable key : A -> JS.num.

Let descending (a b : A) : JS.num := JS.sub (key b) (key a).

Lemma key_is_int (x : A) : key x <> JS.NaN -> exists z, key x = JS.Int z.
Proof.
  destruct (key x) as [z|]; [eauto | congruence].
Qed.

Lemma hd_error_insert (x : A) (l : list A) :
  hd_error (JS.insert descending x l) =
  match hd_error l with
  | None => Some x
  | Some h => if JS.positive (descending x h) then Some h else Some x
  end.
Proof.
  destruct l as [|h t]; simpl; [reflexivity|].
  destruct (JS.positive (descending x h)); reflexivity.
Qed.

Lemma sort_nil_iff (l : list A) : JS.sort descending l = [] <-> l = [].
Proof.
  split; [|intros ->; reflexivity].
  destruct l as [|x l]; [reflexivity|].
  unfold JS.sort; simpl.
  destruct (fold_right (JS.insert descending) [] l) as [|h t]; simpl;
    [discriminate|].
  destruct (JS.positive (descending x h)); discriminate.
Qed.

(** The head of the sorted list is the first element of the greatest key:
    what precedes it in the unsorted list has a smaller key, what follows
    it has no greater one. *)
Lemma sort_head_first_greatest (l : list A) :
  (forall x, In x l -> key x <> JS.NaN) ->
  l <> [] ->
  exists r pre post,
    hd_error (JS.sort descending l) = Some r
    /\ l = pre ++ r :: post
    /\ Forall (fun y => JS.ltb (key y) (key r) = true) pre
    /\ Forall (fun y => JS.leb (key y) (key r) = true) post.
Proof.
  induction l as [|x l IH]; intros Hnum Hne; [congruence|].
  destruct (key_is_int x (Hnum x (or_introl eq_refl))) as [kx Hkx].
  destruct l as [|x' l'].
  - exists x, [], []. simpl. repeat split; constructor.
  - destruct IH as (r & pre & post & Hhd & Hsplit & Hpre & Hpost).
    + intros y Hy. apply Hnum. right. exact Hy.
    + discriminate.
    + unfold JS.sort in *. cbn [fold_right].
      cbn [fold_right] in Hhd.
      rewrite hd_error_insert, Hhd.
      assert (Hr : In r (x' :: l')).
      { rewrite Hsplit. apply in_or_app. right. left. reflexivity. }
      destruct (key_is_int r (Hnum r (or_intror Hr))) as [kr Hkr].
      unfold descending at 1. rewrite Hkx, Hkr. cbn [JS.sub JS.positive].
      destruct (0 <? kr - kx) eqn:Hcmp.
      * apply Z.ltb_lt in Hcmp.
        exists r, (x :: pre), post. repeat split.
        -- rewrite Hsplit. reflexivity.
        -- constructor; [|exact Hpre].
           rewrite Hkx, Hkr. cbn. apply Z.ltb_lt. lia.
        -- exact Hpost.
      * apply Z.ltb_ge in Hcmp.
        exists x, [], (x' :: l'). repeat split; [constructor|].
        rewrite Hsplit. apply Forall_app. split; [|constructor].
        -- eapply Forall_impl; [|exact Hpre].
           intros y Hy. cbv beta in Hy. rewrite Hkr in Hy. rewrite Hkx.
           destruct (key y) as [ky|]; cbn in *; [|discriminate].
           apply Z.ltb_lt in Hy. apply Z.leb_le. lia.
        -- rewrite Hkx, Hkr. cbn. apply Z.leb_le. lia.
        -- eapply Forall_impl; [|exact Hpost].
           intros y Hy. cbv beta in Hy. rewrite Hkr in Hy. rewrite Hkx.
           destruct (key y) as [ky|]; cbn in *; [|discriminate].
           apply Z.leb_le in Hy. apply Z.leb_le. lia.
Qed.

End SortByKey.


(* ================================================================== *)
(** ** The default policy                                              *)
(* ================================================================== *)

Lemma selectedFormat_default (fs : list videoFormat) (type : string)
      (target : option JS.num) :
  findByItag fs target = None ->
  selectedFormat fs type target = defaultFormat fs type.
Proof.
  intros H. unfold selectedFormat. rewrite H. reflexivity.
Qed.

(** C1. With no usable explicit id and a kind other than audio (video in
    particular), the selection is, among the formats with both tracks in the
    mp4 container, the first one in native order whose quality label parses
    to the greatest number: every such format before it has a smaller parsed
    quality and every one after it has no greater one.  When there is no
    such format the selection is the first format with both tracks, whatever
    its container.  The label 1080p60 parses to 1080, and of the labels
    720p60, 1080p, 480p the entry 1080p is selected.  The labels of the mp4
    candidates are asked to parse to a number. *)
Theorem C1_default_video_selection
        (fs : list videoFormat) (type : string) (target : option JS.num) :
  type <> "audio"%string ->
  findByItag fs target = None ->
  (forall f, In f fs -> isCombinedMp4 f = true -> quality f <> JS.NaN) ->
  (filter isCombinedMp4 fs <> [] ->
   exists r pre post,
     selectedFormat fs type target = Some r
     /\ filter isCombinedMp4 fs = pre ++ r :: post
     /\ Forall (fun y => JS.ltb (quality y) (quality r) = true) pre
     /\ Forall (fun y => JS.leb (quality y) (quality r) = true) post)
  /\ (filter isCombinedMp4 fs = [] ->
      selectedFormat fs type target = find isCombined fs)
  /\ JS.Number_of_string (JS.replace_p_rest "1080p60") = JS.Int 1080
  /\ selectedFormat Sample.threeVideos "video" None = Some Sample.f1080.
Proof.
  intros Htype Hid Hnum.
  assert (Hdef : selectedFormat fs type target
                 = JS.orElse (hd_error (preferredVideo fs))
                             (find isCombined fs)).
  { rewrite (selectedFormat_default _ _ _ Hid). unfold defaultFormat.
    destruct (String.eqb_spec type "audio"); [contradiction | reflexivity]. }
  split; [|split; [|split; reflexivity]].
  - intros Hne.
    destruct (sort_head_first_greatest videoFormat quality
                (filter isCombinedMp4 fs)) as (r & pre & post & Hhd & Hrest).
    + intros x Hx. apply filter_In in Hx. destruct Hx as [Hin Hc].
      exact (Hnum x Hin Hc).
    + exact Hne.
    + exists r, pre, post. split; [|exact Hrest].
      rewrite Hdef. unfold preferredVideo. rewrite Hhd. reflexivity.
  - intros Hnil. rewrite Hdef. unfold preferredVideo. rewrite Hnil.
    reflexivity.
Qed.

Lemma C1_default_video_selection_witness :
  exists r pre post,
    selectedFormat Sample.threeVideos "video" None = Some r
    /\ filter isCombinedMp4 Sample.threeVideos = pre ++ r :: post
    /\ Forall (fun y => JS.ltb (quality y) (quality r) = true) pre
    /\ Forall (fun y => JS.leb (quality y) (quality r) = true) post.
Proof.
  apply (C1_default_video_selection Sample.threeVideos "video" None).
  - discriminate.
  - reflexivity.
  - intros f [<-|[<-|[<-|[]]]] _; vm_compute; discriminate.
  - vm_compute. discriminate.
Defined.

(** C2. With no usable explicit id and kind audio, the selection is, among
    the formats with an audio track and no video track, the first one in
    native order of the greatest audio bit rate (an absent bit rate counts
    as 0): every such format before it has a smaller bit rate and every one
    after it has no greater one.  Of the bit rates 128000, 160000, 96000 the
    entry 160000 is selected. *)
Theorem C2_default_audio_selection
        (fs : list videoFormat) (target : option JS.num) :
  findByItag fs target = None ->
  (filter isAudioOnly fs <> [] ->
   exists r pre post,
     selectedFormat fs "audio" target = Some r
     /\ filter isAudioOnly fs = pre ++ r :: post
     /\ Forall (fun y => JS.ltb (audioRate y) (audioRate r) = true) pre
     /\ Forall (fun y => JS.leb (audioRate y) (audioRate r) = true) post)
  /\ selectedFormat Sample.threeAudios "audio" None = Some Sample.a160.
Proof.
  intros Hid. split; [|reflexivity].
  intros Hne.
  destruct (sort_head_first_greatest videoFormat audioRate
              (filter isAudioOnly fs)) as (r & pre & post & Hhd & Hrest).
  - intros x _. unfold audioRate. discriminate.
  - exact Hne.
  - exists r, pre, post. split; [|exact Hrest].
    rewrite (selectedFormat_default _ _ _ Hid). unfold defaultFormat.
    cbn [String.eqb Ascii.eqb Bool.eqb]. unfold preferredAudio.
    rewrite Hhd. reflexivity.
Qed.

Lemma C2_default_audio_selection_witness :
  (filter isAudioOnly Sample.threeAudios <> [] ->
   exists r pre post,
     selectedFormat Sample.threeAudios "audio" None = Some r
     /\ filter isAudioOnly Sample.threeAudios = pre ++ r :: post
     /\ Forall (fun y => JS.ltb (audioRate y) (audioRate r) = true) pre
     /\ Forall (fun y => JS.leb (audioRate y) (audioRate r) = true) post)
  /\ selectedFormat Sample.threeAudios "audio" None = Some Sample.a160.
Proof.
  apply (C2_default_audio_selection Sample.threeAudios None).
  reflexivity.
Defined.


(* ================================================================== *)
(** ** Selection by explicit format id                                 *)
(* ================================================================== *)

Lemma findByItag_int (fs : list videoFormat) (id : Z) :
  id <> 0 ->
  findByItag fs (Some (JS.Int id)) = find (fun g => itag g =? id) fs.
Proof.
  intros Hid. unfold findByItag, JS.truthy.
  destruct (Z.eqb_spec id 0) as [E|_]; [contradiction|]. reflexivity.
Qed.

(** C3, as stated, fails for the id 0: the request names the id of a format
    of the list, and the default policy for video answers instead. *)
Lemma C3_counterexample :
  targetItag (Some "0"%string) = Some (JS.Int 0)
  /\ find (fun g => itag g =? 0) [Sample.f720; Sample.zeroTag]
     = Some Sample.zeroTag
  /\ selectedFormat [Sample.f720; Sample.zeroTag] "video"
                    (targetItag (Some "0"%string))
     = Some Sample.f720
  /\ Sample.f720 <> Sample.zeroTag.
Proof.
  repeat split; discriminate.
Qed.

(** C3, amended.  For a request whose explicit id reads as a whole number
    other than 0, however the request writes it: when a format with that id
    is in the full list, the first such format is the selection, whatever
    the kind and whatever the default policy would choose; when there is
    none, the selection is that of the default policy for the requested
    kind.  An id that reads as 0 or as no number is not looked up, and
    neither is an absent or an empty itag parameter, which gives no id at
    all: the selection is then that of the default policy as well. *)
Theorem C3_explicit_id_selection (fs : list videoFormat) (type : string) :
  (forall id f,
      id <> 0 ->
      find (fun g => itag g =? id) fs = Some f ->
      selectedFormat fs type (Some (JS.Int id)) = Some f
      /\ In f fs /\ itag f = id)
  /\ (forall id,
         id <> 0 ->
         find (fun g => itag g =? id) fs = None ->
         selectedFormat fs type (Some (JS.Int id)) = defaultFormat fs type)
  /\ selectedFormat fs type (Some (JS.Int 0)) = defaultFormat fs type
  /\ selectedFormat fs type (Some JS.NaN) = defaultFormat fs type
  /\ selectedFormat fs type None = defaultFormat fs type
  /\ targetItag None = None
  /\ targetItag (Some EmptyString) = None.
Proof.
  split; [|split; [|repeat split]].
  - intros id f Hid Hf. unfold selectedFormat.
    rewrite (findByItag_int fs id Hid), Hf. split; [reflexivity|].
    apply find_some in Hf. destruct Hf as [Hin Heq].
    split; [exact Hin | apply Z.eqb_eq; exact Heq].
  - intros id Hid Hnone. unfold selectedFormat.
    rewrite (findByItag_int fs id Hid), Hnone. reflexivity.
Qed.

Lemma C3_explicit_id_selection_witness :
  selectedFormat Sample.threeAudios "video" (Some (JS.Int 251))
  = Some Sample.a160
  /\ In Sample.a160 Sample.threeAudios /\ itag Sample.a160 = 251.
Proof.
  destruct (C3_explicit_id_selection Sample.threeAudios "video")
    as (Hfound & _).
  apply (Hfound 251 Sample.a160).
  - lia.
  - reflexivity.
Defined.

(** The fallback of the audio branch repeats the test of its filter: when
    no format has an audio track and no video track, the audio policy
    selects nothing, whatever else the list holds. *)
Lemma defaultFormat_audio_none (fs : list videoFormat) :
  filter isAudioOnly fs = [] -> defaultFormat fs "audio" = None.
Proof.
  intros Hnil. unfold defaultFormat. cbn [String.eqb Ascii.eqb Bool.eqb].
  unfold preferredAudio. rewrite Hnil. cbn [JS.sort fold_right hd_error].
  cbn [JS.orElse].
  induction fs as [|f fs IH]; [reflexivity|].
  simpl in *. destruct (isAudioOnly f); [discriminate | exact (IH Hnil)].
Qed.

(** C4.  On a list that holds only a combined format, the audio policy
    selects nothing although the first format of the list has an audio
    track: the fallback searches with the test of the filter before it
    (an audio track and no video track), and the route answers 404. *)
Theorem C4_audio_fallback_finds_nothing :
  filter isAudioOnly [Sample.f720] = []
  /\ find hasAudio [Sample.f720] = Some Sample.f720
  /\ selectedFormat [Sample.f720] "audio" None = None
  /\ status (fst (@GET (Sample.resolver [Sample.f720]) Sample.names
                       [("url", Sample.goodUrl); ("type", "audio")]%string))
     = 404.
Proof.
  repeat split.
Qed.

Section DownloadRoute.

Context {R : Resolver} {N : FileNames}.

Local Open Scope string_scope.

(** The route on a query is the route on the parameters read from it. *)
Lemma GET_reads_parameters (params : list (string * string)) :
  GET params
  = GET_parsed (get params "url") (get params "type")
               (targetItag (get params "itag")).
Proof.
  reflexivity.
Qed.

Lemma GET_404_inv (url typeParam : option string) (target : option JS.num) :
  status (fst (GET_parsed url typeParam target)) = 404 ->
  exists u info,
    url = Some u
    /\ validateURL u = true
    /\ getInfo u = Some info
    /\ selectedFormat (formats info)
         (match typeParam with Some t => t | None => "video" end)
         target = None.
Proof.
  unfold GET_parsed.
  destruct url as [u|]; [|discriminate].
  destruct (validateURL u) eqn:Hv; cbn [negb]; [|discriminate].
  destruct (getInfo u) as [info|] eqn:Hi; [|discriminate].
  destruct (selectedFormat _ _ _) as [sel|] eqn:Hs.
  - destruct (ytdl u (itag sel) _); discriminate.
  - intros _. exists u, info. auto.
Qed.

Lemma GET_no_format (typeParam : option string) (target : option JS.num)
      (u : string) (info : videoInfo) :
  validateURL u = true ->
  getInfo u = Some info ->
  selectedFormat (formats info)
    (match typeParam with Some t => t | None => "video" end)
    target = None ->
  GET_parsed (Some u) typeParam target
  = (errorResponse 404 "No matching format available for download.",
     [ValidateURL u; GetInfo u]).
Proof.
  intros Hv Hi Hs. unfold GET_parsed. rewrite Hv, Hi, Hs. reflexivity.
Qed.

Lemma selectedFormat_None (fs : list videoFormat) (type : string)
      (target : option JS.num) :
  selectedFormat fs type target = None
  <-> findByItag fs target = None /\ defaultFormat fs type = None.
Proof.
  unfold selectedFormat.
  destruct (findByItag fs target) as [f|]; simpl.
  - split; [discriminate | intros [H _]; discriminate].
  - split; [intros H; split; [reflexivity | exact H] | intros [_ H]; exact H].
Qed.

Lemma filter_nil_of_all_false {A : Type} (p : A -> bool) (l : list A) :
  (forall x, In x l -> p x = false) -> filter p l = [].
Proof.
  induction l as [|x l IH]; intros H; simpl; [reflexivity|].
  rewrite (H x (or_introl eq_refl)). apply IH.
  intros y Hy. apply H. right. exact Hy.
Qed.

Lemma find_none_of_all_false {A : Type} (p : A -> bool) (l : list A) :
  (forall x, In x l -> p x = false) -> find p l = None.
Proof.
  induction l as [|x l IH]; intros H; simpl; [reflexivity|].
  rewrite (H x (or_introl eq_refl)). apply IH.
  intros y Hy. apply H. right. exact Hy.
Qed.

(** Without a format that has the tracks of the kind, the default policy
    finds nothing. *)
Lemma defaultFormat_none (fs : list videoFormat) (type : string) :
  (forall f, In f fs ->
             (if type =? "audio" then hasAudio f else isCombined f) = false) ->
  defaultFormat fs type = None.
Proof.
  intros H. unfold defaultFormat.
  destruct (type =? "audio").
  - assert (Hall : forall f, In f fs -> isAudioOnly f = false).
    { intros f Hf. unfold isAudioOnly. rewrite (H f Hf). reflexivity. }
    unfold preferredAudio.
    rewrite (filter_nil_of_all_false _ _ Hall).
    rewrite (find_none_of_all_false _ _ Hall). reflexivity.
  - assert (Hall : forall f, In f fs -> isCombinedMp4 f = false).
    { intros f Hf. unfold isCombinedMp4. specialize (H f Hf).
      unfold isCombined in H. rewrite H. reflexivity. }
    unfold preferredVideo.
    rewrite (filter_nil_of_all_false _ _ Hall).
    rewrite (find_none_of_all_false _ _ H). reflexivity.
Qed.

(** C5.  Whatever the url, the type and the id of the request, the download
    route answers 404 exactly when the url is valid, the resolver has
    returned its metadata, and neither the lookup of the explicit id nor the
    default policy of the kind (with its fallback) has determined a format;
    the 404 response carries the error message and no stream is opened.  In
    particular, when the id lookup determines nothing and no format of the
    list has the tracks of the requested kind (an audio track for audio,
    both tracks for video), the answer is 404. *)
Theorem C5_no_matching_format
        (url typeParam : option string) (target : option JS.num) :
  (status (fst (GET_parsed url typeParam target)) = 404
   <-> exists u info,
         url = Some u
         /\ validateURL u = true
         /\ getInfo u = Some info
         /\ findByItag (formats info) target = None
         /\ defaultFormat (formats info)
              (match typeParam with Some t => t | None => "video" end)
            = None)
  /\ (status (fst (GET_parsed url typeParam target)) = 404 ->
      exists u,
        GET_parsed url typeParam target
        = (errorResponse 404 "No matching format available for download.",
           [ValidateURL u; GetInfo u]))
  /\ (forall u info,
         url = Some u ->
         validateURL u = true ->
         getInfo u = Some info ->
         findByItag (formats info) target = None ->
         (forall f, In f (formats info) ->
            (if (match typeParam with Some t => t | None => "video" end)
                =? "audio"
             then hasAudio f else isCombined f) = false) ->
         status (fst (GET_parsed url typeParam target)) = 404).
Proof.
  split; [split|split].
  - intros H.
    destruct (GET_404_inv _ _ _ H) as (u & info & Hu & Hv & Hi & Hs).
    apply selectedFormat_None in Hs. destruct Hs as [Hid Hdef].
    exists u, info. auto.
  - intros (u & info & -> & Hv & Hi & Hid & Hdef).
    rewrite (GET_no_format typeParam target u info Hv Hi); [reflexivity|].
    apply selectedFormat_None. auto.
  - intros H.
    destruct (GET_404_inv _ _ _ H) as (u & info & -> & Hv & Hi & Hs).
    exists u. exact (GET_no_format typeParam target u info Hv Hi Hs).
  - intros u info -> Hv Hi Hid Hall.
    rewrite (GET_no_format typeParam target u info Hv Hi); [reflexivity|].
    apply selectedFormat_None. split; [exact Hid|].
    apply defaultFormat_none. exact Hall.
Qed.

(** C7.  For a string that the resolver does not accept as a video url, the
    download route (the string being its url parameter) and the metadata
    route (the string being the url of its body) both answer 400 with the
    error message, and the only call either of them has made to the resolver
    is the validation of the string: no metadata call, no stream. *)
Theorem C7_invalid_url_rejected (s : string) (params : list (string * string)) :
  validateURL s = false ->
  get params "url" = Some s ->
  GET params
  = (errorResponse 400 "Please provide a valid YouTube URL.", [ValidateURL s])
  /\ POST (JsonValue (Some s))
     = (errorResponse 400 "Please provide a valid YouTube URL.",
        [ValidateURL s])
  /\ (forall c, In c (snd (GET params)) \/ In c (snd (POST (JsonValue (Some s))))
                -> c = ValidateURL s).
Proof.
  intros Hv Hu.
  assert (HG : GET params
               = (errorResponse 400 "Please provide a valid YouTube URL.",
                  [ValidateURL s])).
  { unfold GET, GET_parsed. rewrite Hu, Hv. reflexivity. }
  assert (HP : POST (JsonValue (Some s))
               = (errorResponse 400 "Please provide a valid YouTube URL.",
                  [ValidateURL s])).
  { unfold POST. rewrite Hv. reflexivity. }
  split; [exact HG | split; [exact HP|]].
  rewrite HG, HP. simpl. intros c [[H|[]]|[H|[]]]; symmetry; exact H.
Qed.

(** [split(';')[0]] cuts a MIME type at its first semicolon: what it keeps
    has no semicolon, and what it drops is nothing or starts with one. *)
Lemma split_semicolon_0_spec (m : string) :
  exists rest,
    m = JS.split_semicolon_0 m ++ rest
    /\ (rest = "" \/ exists r, rest = String ";" r)
    /\ ~ In ";"%char (list_ascii_of_string (JS.split_semicolon_0 m)).
Proof.
  induction m as [|c m IH]; simpl.
  - exists "". auto.
  - destruct (Ascii.eqb_spec c ";") as [->|Hc].
    + exists (String ";" m). simpl.
      split; [reflexivity|]. split; [right; eauto | intros []].
    + destruct IH as (rest & Heq & Hrest & Hno).
      exists rest. simpl. split; [congruence|]. split; [exact Hrest|].
      intros [H|H]; [congruence | exact (Hno H)].
Qed.

(** C9.  Whatever the url, the type and the id of the request: when a
    format has been selected and its stream opened, the response is a 200
    whose Content-Length header is the declared byte length of the format
    when there is one (a non-empty [contentLength]) and is missing when
    there is none, and whose Content-Type header is the MIME type of the
    format cut before its first semicolon, that is without its parameters
    (the default type when the format has no MIME type). *)
Theorem C9_download_headers
        (typeParam : option string) (target : option JS.num)
        (u : string) (info : videoInfo)
        (selected : videoFormat) (webStream : stream) :
  validateURL u = true ->
  getInfo u = Some info ->
  selectedFormat (formats info)
    (match typeParam with Some t => t | None => "video" end)
    target = Some selected ->
  ytdl u (itag selected)
       (if (match typeParam with Some t => t | None => "video" end)
           =? "audio"
        then "audioonly" else "videoandaudio") = Some webStream ->
  status (fst (GET_parsed (Some u) typeParam target)) = 200
  /\ payload (fst (GET_parsed (Some u) typeParam target)) = Bytes webStream
  /\ (forall len, contentLength selected = Some len -> len <> "" ->
        get (headers (fst (GET_parsed (Some u) typeParam target)))
            "Content-Length" = Some len)
  /\ (contentLength selected = None \/ contentLength selected = Some "" ->
        get (headers (fst (GET_parsed (Some u) typeParam target)))
            "Content-Length" = None)
  /\ (forall m, mimeType selected = Some m ->
        get (headers (fst (GET_parsed (Some u) typeParam target)))
            "Content-Type"
        = Some (JS.split_semicolon_0 m)
        /\ exists rest,
             m = JS.split_semicolon_0 m ++ rest
             /\ (rest = "" \/ exists r, rest = String ";" r)
             /\ ~ In ";"%char (list_ascii_of_string (JS.split_semicolon_0 m)))
  /\ (mimeType selected = None ->
        get (headers (fst (GET_parsed (Some u) typeParam target)))
            "Content-Type"
        = Some "application/octet-stream").
Proof.
  intros Hv Hi Hs Hy.
  unfold GET_parsed. rewrite Hv, Hi. cbn [negb]. rewrite Hs, Hy.
  cbn [fst status payload headers]. unfold downloadHeaders.
  split; [reflexivity|]. split; [reflexivity|].
  split; [|split; [|split]].
  - intros len Hlen Hne. rewrite Hlen.
    destruct len as [|c len]; [congruence|]. reflexivity.
  - intros [Hlen|Hlen]; rewrite Hlen; reflexivity.
  - intros m Hm. rewrite Hm. split; [reflexivity|].
    apply split_semicolon_0_spec.
  - intros Hm. rewrite Hm. reflexivity.
Qed.

(** C10.  A request whose [type] parameter is absent or is anything but the
    exact string audio is answered as the same request with [type=video]:
    same response, same calls to the resolver, on the query as on the
    parameters read from it.  Once its url is accepted and the metadata have
    arrived, the format it selects is the one with the explicit id or else
    the one of the video branch (the first mp4 combined format of greatest
    quality, or else the first combined format); without such a format it
    answers 404, and with one it opens the stream of that format with the
    videoandaudio filter and, the stream open, sends it with a 200. *)
Theorem C10_type_defaults_to_video
        (params : list (string * string))
        (url typeParam : option string) (target : option JS.num) :
  (get params "type" <> Some "audio" ->
   GET params = GET (("type", "video") :: params))
  /\ (typeParam <> Some "audio" ->
      GET_parsed url typeParam target = GET_parsed url (Some "video") target
      /\ forall u info,
           url = Some u ->
           validateURL u = true ->
           getInfo u = Some info ->
           (JS.orElse (findByItag (formats info) target)
                      (JS.orElse (hd_error (preferredVideo (formats info)))
                                 (find isCombined (formats info))) = None ->
            GET_parsed url typeParam target
            = (errorResponse 404 "No matching format available for download.",
               [ValidateURL u; GetInfo u]))
           /\ (forall sel,
                  JS.orElse (findByItag (formats info) target)
                            (JS.orElse
                               (hd_error (preferredVideo (formats info)))
                               (find isCombined (formats info))) = Some sel ->
                  snd (GET_parsed url typeParam target)
                  = [ValidateURL u; GetInfo u;
                     OpenStream u (itag sel) "videoandaudio"]
                  /\ (forall webStream,
                         ytdl u (itag sel) "videoandaudio" = Some webStream ->
                         status (fst (GET_parsed url typeParam target)) = 200
                         /\ payload (fst (GET_parsed url typeParam target))
                            = Bytes webStream))).
Proof.
  assert (Hkind : forall tp : option string,
             tp <> Some "audio" ->
             ((match tp with Some t => t | None => "video" end) =? "audio")
             = false).
  { intros [t|] Ht; [|reflexivity].
    destruct (String.eqb_spec t "audio") as [->|_]; [congruence|reflexivity]. }
  assert (Hparsed : forall tp, tp <> Some "audio" ->
             forall u0 t0,
               GET_parsed u0 tp t0 = GET_parsed u0 (Some "video") t0).
  { intros tp Htp u0 t0. unfold GET_parsed, selectedFormat, defaultFormat.
    rewrite (Hkind tp Htp).
    change ("video" =? "audio") with false. cbv iota. reflexivity. }
  split.
  - intros Htype. unfold GET. cbn [get].
    change ("type" =? "url") with false.
    change ("type" =? "itag") with false.
    change ("type" =? "type") with true. cbv iota.
    apply Hparsed. exact Htype.
  - intros Htype. split; [apply Hparsed; exact Htype|].
    intros u info -> Hv Hi.
    unfold GET_parsed, selectedFormat, defaultFormat.
    rewrite Hv, Hi, (Hkind typeParam Htype). cbn [negb].
    split.
    + intros Hnone. rewrite Hnone. reflexivity.
    + intros sel Hsel. rewrite Hsel.
      destruct (ytdl u (itag sel) "videoandaudio") as [w|].
      * split; [reflexivity|]. intros webStream Hw.
        injection Hw as <-. split; reflexivity.
      * split; [reflexivity|]. intros webStream Hw. discriminate.
Qed.

End DownloadRoute.

Section RouteExamples.

Local Open Scope string_scope.

Lemma C5_no_matching_format_witness :
  status (fst (@GET_parsed (Sample.resolver Sample.threeAudios) Sample.names
                           (Some Sample.goodUrl) (Some "video")
                           (Some (JS.Int 18)))) = 404.
Proof.
  destruct (@C5_no_matching_format (Sample.resolver Sample.threeAudios)
              Sample.names (Some Sample.goodUrl) (Some "video")
              (Some (JS.Int 18)))
    as (_ & _ & H).
  apply (H Sample.goodUrl
           {| formats := Sample.threeAudios;
              videoDetails := Sample.details |}).
  - reflexivity.
  - reflexivity.
  - reflexivity.
  - reflexivity.
  - intros f [<-|[<-|[<-|[]]]]; reflexivity.
Defined.

Lemma C7_invalid_url_rejected_witness :
  @validateURL (Sample.resolver Sample.threeVideos) "not a url" = false
  /\ @GET (Sample.resolver Sample.threeVideos) Sample.names
          [("url", "not a url")]%string
     = (errorResponse 400 "Please provide a valid YouTube URL.",
        [ValidateURL "not a url"])
  /\ @POST (Sample.resolver Sample.threeVideos) (JsonValue (Some "not a url"))
     = (errorResponse 400 "Please provide a valid YouTube URL.",
        [ValidateURL "not a url"]).
Proof.
  split; [reflexivity|].
  destruct (@C7_invalid_url_rejected (Sample.resolver Sample.threeVideos)
              Sample.names "not a url" [("url", "not a url")]%string)
    as (HG & HP & _).
  - reflexivity.
  - reflexivity.
  - split; [exact HG | exact HP].
Defined.

Lemma C9_download_headers_witness :
  get (headers (fst (@GET_parsed (Sample.resolver Sample.threeVideos)
                                 Sample.names (Some Sample.goodUrl) None
                                 (Some (JS.Int 135)))))
      "Content-Length" = Some "1048576"
  /\ get (headers (fst (@GET_parsed (Sample.resolver Sample.threeVideos)
                                    Sample.names (Some Sample.goodUrl) None
                                    (Some (JS.Int 135)))))
         "Content-Type" = Some "video/mp4".
Proof.
  destruct (@C9_download_headers (Sample.resolver Sample.threeVideos)
              Sample.names None (Some (JS.Int 135))
              Sample.goodUrl
              {| formats := Sample.threeVideos;
                 videoDetails := Sample.details |}
              Sample.f480 [])
    as (_ & _ & Hlen & _ & Hmime & _).
  - reflexivity.
  - reflexivity.
  - reflexivity.
  - reflexivity.
  - split.
    + apply (Hlen "1048576"); [reflexivity | discriminate].
    + apply (Hmime (Sample.dquoted_mime "video/mp4" "avc1.64001F, mp4a.40.2")).
      reflexivity.
Defined.

Lemma C10_type_defaults_to_video_witness :
  snd (@GET_parsed (Sample.resolver Sample.threeVideos) Sample.names
                   (Some Sample.goodUrl) (Some "AUDIO") None)
  = [ValidateURL Sample.goodUrl; GetInfo Sample.goodUrl;
     OpenStream Sample.goodUrl 137 "videoandaudio"]
  /\ status (fst (@GET_parsed (Sample.resolver Sample.threeVideos)
                              Sample.names
                              (Some Sample.goodUrl) (Some "AUDIO") None))
     = 200.
Proof.
  destruct (@C10_type_defaults_to_video
              (Sample.resolver Sample.threeVideos) Sample.names
              [("url", Sample.goodUrl); ("type", "AUDIO")]
              (Some Sample.goodUrl) (Some "AUDIO") None)
    as (_ & Hvideo).
  destruct Hvideo as (_ & Hroute); [discriminate|].
  destruct (Hroute Sample.goodUrl
              {| formats := Sample.threeVideos;
                 videoDetails := Sample.details |}
              eq_refl eq_refl eq_refl)
    as (_ & Hsel).
  destruct (Hsel Sample.f1080 eq_refl) as (Hcalls & Hopen).
  split; [exact Hcalls|].
  destruct (Hopen [] eq_refl) as (Hstatus & _). exact Hstatus.
Defined.

End RouteExamples.

(* ================================================================== *)
(** ** The lists of the metadata route                                 *)
(* ================================================================== *)

(** Every entry of the mp4 list comes from a format of the resolver's list
    that has both tracks and whose MIME type contains [mp4]. *)
Lemma mp4FormatsOf_sources (fs : list videoFormat) (entry : Format) :
  In entry (mp4FormatsOf fs) ->
  exists format,
    In format fs
    /\ entry = toVideoEntry format
    /\ hasVideo format = true
    /\ hasAudio format = true
    /\ mimeIncludes "mp4" format = true.
Proof.
  unfold mp4FormatsOf, filterFormats. cbn [String.eqb Ascii.eqb Bool.eqb].
  intros H. apply in_map_iff in H. destruct H as (format & Heq & Hin).
  apply filter_In in Hin. destruct Hin as [Hin Hmime].
  apply filter_In in Hin. destruct Hin as [Hin Htracks].
  apply andb_prop in Htracks. destruct Htracks as [_ Htracks].
  apply andb_prop in Htracks. destruct Htracks as [Hv Ha].
  exists format. auto.
Qed.

(** Every entry of the audio list comes from a format of the resolver's
    list that has an audio track and no video track. *)
Lemma audioFormatsOf_sources (fs : list videoFormat) (entry : Format) :
  In entry (audioFormatsOf fs) ->
  exists format,
    In format fs
    /\ entry = toAudioEntry format
    /\ hasAudio format = true
    /\ hasVideo format = false.
Proof.
  unfold audioFormatsOf, filterFormats. cbn [String.eqb Ascii.eqb Bool.eqb].
  intros H. apply in_map_iff in H. destruct H as (format & Heq & Hin).
  apply filter_In in Hin. destruct Hin as [Hin _].
  apply filter_In in Hin. destruct Hin as [Hin Htracks].
  apply andb_prop in Htracks. destruct Htracks as [_ Htracks].
  apply andb_prop in Htracks. destruct Htracks as [Hv Ha].
  apply negb_true_iff in Hv.
  exists format. auto.
Qed.

(** C8.  The metadata route puts the 3GPP format of itag 17 in its mp4 list:
    the format has both tracks and its container is not mp4, but the codecs
    of its MIME type contain the letters mp4, which is all the route tests.
    The download route, with the same list, does not count it as an mp4
    format. *)
Theorem C8_mp4_list_holds_3gpp :
  mp4FormatsOf [Sample.f3gpp] = [toVideoEntry Sample.f3gpp]
  /\ container Sample.f3gpp = "3gpp"%string
  /\ mimeType Sample.f3gpp
     = Some (Sample.dquoted_mime "video/3gpp" "mp4v.20.3, mp4a.40.2")
  /\ isCombinedMp4 Sample.f3gpp = false
  /\ (exists info,
        payload (fst (@POST (Sample.resolver [Sample.f3gpp])
                            (JsonValue (Some Sample.goodUrl))))
        = InfoJson info
        /\ mp4Formats info = [toVideoEntry Sample.f3gpp]).
Proof.
  repeat split. eexists. split; reflexivity.
Qed.

(* ================================================================== *)
(** ** The progress display of the client                              *)
(* ================================================================== *)

Section Progress.

Variable contentLength : JS.num.

Lemma readLoop_snoc (reads : list (option (list Byte.byte)))
      (value : option (list Byte.byte)) :
  Client.readLoop contentLength (reads ++ [value])
  = Client.onRead contentLength (Client.readLoop contentLength reads) value.
Proof.
  unfold Client.readLoop. rewrite fold_left_app. reflexivity.
Qed.

Lemma received_fold (reads : list (option (list Byte.byte)))
      (st : Client.relay) :
  Client.received (fold_left (Client.onRead contentLength) reads st)
  = Client.received st + Client.bytesIn reads.
Proof.
  revert st. induction reads as [|value reads IH]; intros st; simpl.
  - lia.
  - rewrite IH. destruct value as [v|]; simpl; lia.
Qed.

Lemma received_readLoop (reads : list (option (list Byte.byte))) :
  Client.received (Client.readLoop contentLength reads) = Client.bytesIn reads.
Proof.
  unfold Client.readLoop. rewrite received_fold. reflexivity.
Qed.

Lemma percent_le_99 (r t : Z) : Client.percent r t <= 99.
Proof.
  unfold Client.percent. apply Z.le_min_l.
Qed.

Lemma progressLog_fold_le_99 (reads : list (option (list Byte.byte)))
      (st : Client.relay) :
  Forall (fun p => p <= 99) (Client.progressLog st) ->
  Forall (fun p => p <= 99)
         (Client.progressLog (fold_left (Client.onRead contentLength) reads st)).
Proof.
  revert st. induction reads as [|value reads IH]; intros st Hst; simpl.
  - exact Hst.
  - apply IH. destruct value as [v|]; simpl; [|exact Hst].
    destruct contentLength as [total|]; [|exact Hst].
    destruct (JS.truthy (JS.Int total)); [|exact Hst].
    apply Forall_app. split; [exact Hst|].
    constructor; [apply percent_le_99 | constructor].
Qed.

End Progress.

Lemma firstn_succ_nth_error {A : Type} (l : list A) (k : nat) (x : A) :
  nth_error l k = Some x -> firstn (S k) l = firstn k l ++ [x].
Proof.
  revert k. induction l as [|y l IH]; intros [|k] H; simpl in *;
    try discriminate.
  - congruence.
  - rewrite (IH k H). reflexivity.
Qed.

(** C6, as stated, fails: with a declared length of 3 bytes, the progress
    shown after a first chunk of 2 bytes is 67, where
    [min(99, floor(received/total*100))] is 66. *)
Lemma C6_counterexample :
  last (Client.progressLog
          (Client.readLoop
             (Client.contentLengthOf [("Content-Length", "3")]%string)
             [Some [Byte.x00; Byte.x01]])) 0 = 67
  /\ Client.floorPercent (Client.bytesIn [Some [Byte.x00; Byte.x01]]) 3 = 66.
Proof.
  split; vm_compute; reflexivity.
Qed.

(** C6, amended.  With a declared total length (a Content-Length that reads
    as a number other than 0), the progress shown after each received chunk
    is [min(99, round(received/total*100))], the division and the product
    being those of doubles and the rounding being to the nearest integer;
    every value shown while chunks are read is at most 99, so never 100; and
    once the reads are exhausted the transfer sets the progress to 100. *)
Theorem C6_progress_display
        (responseHeaders : list (string * string)) (total : Z)
        (reads : list (option (list Byte.byte))) :
  Client.contentLengthOf responseHeaders = JS.Int total ->
  total <> 0 ->
  (forall k v,
      nth_error reads k = Some (Some v) ->
      last (Client.progressLog
              (Client.readLoop (JS.Int total) (firstn (S k) reads))) 0
      = Z.min 99
          (JS.Math_round
             (JS.of_Z (Client.bytesIn (firstn (S k) reads))
              / JS.of_Z total * JS.of_Z 100)%float))
  /\ (forall k,
         Forall (fun p => p <= 99 /\ p <> 100)
                (Client.progressLog
                   (Client.readLoop (JS.Int total) (firstn k reads))))
  /\ Client.progressLog (Client.handleDownload responseHeaders reads)
     = Client.progressLog (Client.readLoop (JS.Int total) reads) ++ [100]
  /\ last (Client.progressLog (Client.handleDownload responseHeaders reads)) 0
     = 100.
Proof.
  intros Hlen Htotal.
  assert (Htruthy : JS.truthy (JS.Int total) = true).
  { unfold JS.truthy. destruct (Z.eqb_spec total 0); [contradiction|].
    reflexivity. }
  split; [|split; [|split]].
  - intros k v Hnth.
    rewrite (firstn_succ_nth_error reads k (Some v) Hnth).
    rewrite readLoop_snoc. unfold Client.onRead at 1.
    cbn [Client.progressLog]. rewrite Htruthy. rewrite last_last.
    rewrite received_readLoop. unfold Client.percent.
    f_equal. f_equal. f_equal. f_equal. f_equal.
    unfold Client.bytesIn. rewrite fold_right_app. simpl.
    generalize (firstn k reads). intros l.
    induction l as [|[w|] l IH]; simpl; lia.
  - intros k. eapply Forall_impl.
    2: { apply progressLog_fold_le_99. simpl. constructor; [lia|constructor]. }
    intros p Hp. cbv beta in Hp. lia.
  - unfold Client.handleDownload. rewrite Hlen. reflexivity.
  - unfold Client.handleDownload. cbn [Client.progressLog].
    apply last_last.
Qed.

Lemma C6_progress_display_witness :
  last (Client.progressLog
          (Client.handleDownload
             [("Content-Length", "3")]%string
             [Some [Byte.x00; Byte.x01]; None; Some [Byte.x02]])) 0 = 100.
Proof.
  apply (C6_progress_display [("Content-Length", "3")]%string 3
           [Some [Byte.x00; Byte.x01]; None; Some [Byte.x02]]).
  - reflexivity.
  - lia.
Defined.

(* ================================================================== *)
(** ** More on the selection of the download route                     *)
(* ================================================================== *)

Lemma insert_In {A : Type} (comparefn : A -> A -> JS.num) (x y : A)
      (l : list A) :
  In y (JS.insert comparefn x l) <-> y = x \/ In y l.
Proof.
  induction l as [|z l IH]; simpl.
  - split; intros [H|H]; auto.
  - destruct (JS.positive (comparefn x z)); simpl; rewrite ?IH;
      intuition auto.
Qed.

Lemma sort_In {A : Type} (comparefn : A -> A -> JS.num) (y : A) (l : list A) :
  In y (JS.sort comparefn l) <-> In y l.
Proof.
  unfold JS.sort. induction l as [|x l IH]; simpl; [reflexivity|].
  rewrite insert_In, IH. intuition auto.
Qed.

Lemma hd_error_In {A : Type} (l : list A) (x : A) :
  hd_error l = Some x -> In x l.
Proof.
  destruct l; simpl; [discriminate|]. intros H. left. congruence.
Qed.

Lemma orElse_Some {A : Type} (a b : option A) (x : A) :
  JS.orElse a b = Some x -> a = Some x \/ (a = None /\ b = Some x).
Proof.
  destruct a; simpl; auto.
Qed.

(** What the default policy returns is a format of the list with the tracks
    of the kind: an audio track and no video track for audio, both tracks
    for any other kind. *)
Lemma defaultFormat_sound (fs : list videoFormat) (type : string)
      (f : videoFormat) :
  defaultFormat fs type = Some f ->
  In f fs
  /\ (if (type =? "audio")%string then isAudioOnly f else isCombined f) = true.
Proof.
  unfold defaultFormat. destruct (type =? "audio")%string; intros H.
  - apply orElse_Some in H. destruct H as [H|[_ H]].
    + apply hd_error_In in H. unfold preferredAudio in H.
      apply sort_In in H. apply filter_In in H. exact H.
    + apply find_some in H. exact H.
  - apply orElse_Some in H. destruct H as [H|[_ H]].
    + apply hd_error_In in H. unfold preferredVideo in H.
      apply sort_In in H. apply filter_In in H. destruct H as [Hin Hc].
      split; [exact Hin|]. unfold isCombinedMp4 in Hc. unfold isCombined.
      apply andb_prop in Hc. destruct Hc as [Hc _]. exact Hc.
    + apply find_some in H. exact H.
Qed.

Lemma findByItag_sound (fs : list videoFormat) (target : option JS.num)
      (f : videoFormat) :
  findByItag fs target = Some f ->
  In f fs /\ target = Some (JS.Int (itag f)) /\ itag f <> 0.
Proof.
  unfold findByItag. destruct target as [n|]; [|discriminate].
  destruct (JS.truthy n) eqn:Ht; [|discriminate].
  intros H. apply find_some in H. destruct H as [Hin Heq].
  destruct n as [z|]; simpl in *; [|discriminate].
  apply Z.eqb_eq in Heq. subst z. split; [exact Hin|].
  split; [reflexivity|].
  intros H0. rewrite H0 in Ht. discriminate.
Qed.

Lemma selectedFormat_member (fs : list videoFormat) (type : string)
      (target : option JS.num) (f : videoFormat) :
  selectedFormat fs type target = Some f -> In f fs.
Proof.
  unfold selectedFormat. intros H. apply orElse_Some in H.
  destruct H as [H|[_ H]].
  - apply findByItag_sound in H. apply H.
  - apply defaultFormat_sound in H. apply H.
Qed.

(** X1.  The selected format is always one of the formats the resolver
    returned; it either carries the requested id (which is then not 0) or
    has the tracks of the requested kind: audio without video for audio,
    both tracks otherwise.  A format with video only is therefore never
    selected without being asked for by id. *)
Theorem X1_selection_sound
        (fs : list videoFormat) (type : string) (target : option JS.num)
        (f : videoFormat) :
  selectedFormat fs type target = Some f ->
  In f fs
  /\ ((target = Some (JS.Int (itag f)) /\ itag f <> 0)
      \/ (findByItag fs target = None
          /\ (if (type =? "audio")%string
              then hasAudio f && negb (hasVideo f)
              else hasVideo f && hasAudio f) = true)).
Proof.
  unfold selectedFormat. intros H. apply orElse_Some in H.
  destruct H as [H|[Hnone H]].
  - apply findByItag_sound in H. destruct H as (Hin & Ht & Hz).
    split; [exact Hin|]. left. auto.
  - apply defaultFormat_sound in H. destruct H as [Hin Hk].
    split; [exact Hin|]. right. split; [exact Hnone|exact Hk].
Qed.

Lemma X1_selection_sound_witness :
  In Sample.a160 Sample.threeAudios
  /\ ((None = Some (JS.Int (itag Sample.a160)) /\ itag Sample.a160 <> 0)
      \/ (findByItag Sample.threeAudios None = None
          /\ (if ("audio" =? "audio")%string
              then hasAudio Sample.a160 && negb (hasVideo Sample.a160)
              else hasVideo Sample.a160 && hasAudio Sample.a160) = true)).
Proof.
  apply (X1_selection_sound Sample.threeAudios "audio" None Sample.a160).
  reflexivity.
Defined.

(* ================================================================== *)
(** ** Outcomes and resolver calls of the two routes                   *)
(* ================================================================== *)

Section RouteOutcomes.

Context {R : Resolver} {N : FileNames}.

Local Open Scope string_scope.

Local Abbreviation kindOf params :=
  (match get params "type" with Some t => t | None => "video" end).

Local Abbreviation filterOf params :=
  (if kindOf params =? "audio" then "audioonly" else "videoandaudio").

(** X2.  Whatever the url, the type and the id of the request, the download
    route answers 200, 400, 404 or 500 and nothing else.  It answers 400
    exactly when the url parameter is missing or is refused by the
    validation.  It answers 200 only when the url is valid, the metadata
    have arrived, a format is selected and its stream has opened, and the
    body is then that stream.  When the metadata call rejects, and when a
    format is selected and opening its stream throws, it answers 500 with
    the error message. *)
Theorem X2_GET_status_cases
        (url typeParam : option string) (target : option JS.num) :
  In (status (fst (GET_parsed url typeParam target))) [200; 400; 404; 500]%Z
  /\ (status (fst (GET_parsed url typeParam target)) = 400%Z
      <-> url = None
          \/ exists u, url = Some u /\ validateURL u = false)
  /\ (status (fst (GET_parsed url typeParam target)) = 200%Z ->
      exists u info sel webStream,
        url = Some u /\ validateURL u = true
        /\ getInfo u = Some info
        /\ selectedFormat (formats info)
             (match typeParam with Some t => t | None => "video" end)
             target = Some sel
        /\ ytdl u (itag sel)
                (if (match typeParam with Some t => t | None => "video" end)
                    =? "audio"
                 then "audioonly" else "videoandaudio") = Some webStream
        /\ payload (fst (GET_parsed url typeParam target)) = Bytes webStream)
  /\ (forall u,
         url = Some u -> validateURL u = true -> getInfo u = None ->
         GET_parsed url typeParam target
         = (errorResponse 500
              "Unable to process download. Please try again later.",
            [ValidateURL u; GetInfo u]))
  /\ (forall u info sel,
         url = Some u -> validateURL u = true -> getInfo u = Some info ->
         selectedFormat (formats info)
           (match typeParam with Some t => t | None => "video" end)
           target = Some sel ->
         ytdl u (itag sel)
              (if (match typeParam with Some t => t | None => "video" end)
                  =? "audio"
               then "audioonly" else "videoandaudio") = None ->
         fst (GET_parsed url typeParam target)
         = errorResponse 500
             "Unable to process download. Please try again later.").
Proof.
  split; [|split; [|split; [|split]]].
  - unfold GET_parsed.
    destruct url as [u|]; [|cbn; auto].
    destruct (validateURL u); cbn [negb]; [|cbn; auto].
    destruct (getInfo u) as [info|]; [|cbn; auto].
    destruct (selectedFormat _ _ _) as [sel|]; [|cbn; auto].
    destruct (ytdl u (itag sel) _); cbn; auto.
  - unfold GET_parsed.
    destruct url as [u|].
    2: { cbn. split; auto. }
    destruct (validateURL u) eqn:Hv; cbn [negb].
    2: { cbn. split; [|reflexivity]. intros _. right. exists u. auto. }
    assert (Hno : ~ (Some u = None
                     \/ exists u', Some u = Some u' /\ validateURL u' = false)).
    { intros [H|(u' & H & Hv')]; [discriminate|].
      injection H as <-. congruence. }
    destruct (getInfo u) as [info|].
    2: { cbn. split; [discriminate | intros H; destruct (Hno H)]. }
    destruct (selectedFormat _ _ _) as [sel|].
    2: { cbn. split; [discriminate | intros H; destruct (Hno H)]. }
    destruct (ytdl u (itag sel) _); cbn;
      (split; [discriminate | intros H; destruct (Hno H)]).
  - unfold GET_parsed.
    destruct url as [u|]; [|discriminate].
    destruct (validateURL u) eqn:Hv; cbn [negb]; [|discriminate].
    destruct (getInfo u) as [info|] eqn:Hi; [|discriminate].
    destruct (selectedFormat _ _ _) as [sel|] eqn:Hs; [|discriminate].
    destruct (ytdl u (itag sel) _) as [w|] eqn:Hy; [|discriminate].
    intros _. exists u, info, sel, w. auto 10.
  - intros u -> Hv Hi. unfold GET_parsed. rewrite Hv, Hi. reflexivity.
  - intros u info sel -> Hv Hi Hs Hy. unfold GET_parsed.
    rewrite Hv, Hi. cbn [negb]. rewrite Hs, Hy. reflexivity.
Qed.

(** X3.  Every call the download route makes to the resolver is about its
    url parameter; the metadata are asked for only after the validation has
    accepted the url; and a stream is opened only after the metadata have
    arrived, for the itag of a format of the resolver's list, with the
    audioonly filter when the kind is audio and the videoandaudio filter
    otherwise. *)
Theorem X3_GET_calls (params : list (string * string)) (c : call) :
  In c (snd (GET params)) ->
  exists u,
    get params "url" = Some u
    /\ (c = ValidateURL u
        \/ (c = GetInfo u /\ validateURL u = true)
        \/ exists info sel,
             c = OpenStream u (itag sel) (filterOf params)
             /\ validateURL u = true
             /\ getInfo u = Some info
             /\ In sel (formats info)).
Proof.
  unfold GET, GET_parsed.
  destruct (get params "url") as [u|]; [|intros []].
  intros H. exists u. split; [reflexivity|]. revert H.
  destruct (validateURL u) eqn:Hv; cbn [negb].
  2: { intros [H|[]]. left. symmetry. exact H. }
  destruct (getInfo u) as [info|] eqn:Hi.
  2: { intros [H|[H|[]]]; [left | right; left]; auto. }
  destruct (selectedFormat (formats info) (kindOf params)
              (targetItag (get params "itag"))) as [sel|] eqn:Hs.
  2: { intros [H|[H|[]]]; [left | right; left]; auto. }
  assert (Hin : In sel (formats info)).
  { apply selectedFormat_member in Hs. exact Hs. }
  destruct (ytdl u (itag sel) (filterOf params));
    cbn [snd]; (intros [H|[H|[H|[]]]];
                [left | right; left | right; right]; auto;
                exists info, sel; auto).
Qed.

End RouteOutcomes.

Lemma X3_GET_calls_witness :
  exists u,
    get [("url", Sample.goodUrl); ("type", "audio")]%string "url" = Some u
    /\ (OpenStream Sample.goodUrl 251 "audioonly" = ValidateURL u
        \/ (OpenStream Sample.goodUrl 251 "audioonly" = GetInfo u
            /\ @validateURL (Sample.resolver Sample.threeAudios) u = true)
        \/ exists info sel,
             OpenStream Sample.goodUrl 251 "audioonly"
             = OpenStream u (itag sel) "audioonly"
             /\ @validateURL (Sample.resolver Sample.threeAudios) u = true
             /\ @getInfo (Sample.resolver Sample.threeAudios) u = Some info
             /\ In sel (formats info)).
Proof.
  apply (@X3_GET_calls (Sample.resolver Sample.threeAudios) Sample.names
           [("url", Sample.goodUrl); ("type", "audio")]%string
           (OpenStream Sample.goodUrl 251 "audioonly")).
  vm_compute. right. right. left. reflexivity.
Defined.

(* ================================================================== *)
(** ** The file extension and the attachment name                      *)
(* ================================================================== *)

Lemma prefix_iff_append (p s : string) :
  String.prefix p s = true <-> exists post, s = (p ++ post)%string.
Proof.
  revert s. induction p as [|c p IH]; intros s; destruct s as [|d s]; simpl.
  - split; [intros _; exists EmptyString; reflexivity | reflexivity].
  - split; [intros _; exists (String d s); reflexivity | reflexivity].
  - split; [discriminate | intros [post H]; discriminate].
  - destruct (ascii_dec c d) as [->|Hne].
    + rewrite IH. split; intros [post H]; exists post; congruence.
    + split; [discriminate | intros [post H]; congruence].
Qed.

(** [includes] holds exactly of the strings that contain the needle. *)
Lemma includes_iff (s needle : string) :
  JS.includes s needle = true
  <-> exists pre post, s = (pre ++ needle ++ post)%string.
Proof.
  induction s as [|c s IH].
  - cbn [JS.includes]. rewrite orb_false_r, prefix_iff_append. split.
    + intros [post H]. exists EmptyString, post. exact H.
    + intros (pre & post & H). destruct pre as [|d pre]; [|discriminate].
      exists post. exact H.
  - cbn [JS.includes]. rewrite orb_true_iff, prefix_iff_append, IH. split.
    + intros [[post H]|(pre & post & H)].
      * exists EmptyString, post. exact H.
      * exists (String c pre), post. simpl. congruence.
    + intros (pre & post & H). destruct pre as [|d pre].
      * left. exists post. exact H.
      * right. exists pre, post. simpl in H. congruence.
Qed.

(** X4.  The extension inferred from a MIME type is one of mp4, webm, mp3,
    ogg and bin.  It is mp4 exactly when the MIME type, parameters included,
    contains the letters mp4 somewhere, whatever else it contains, and it is
    bin for a missing or empty MIME type. *)
Theorem X4_inferExtension_cases :
  (forall mime,
      In (inferExtension mime) ["mp4"; "webm"; "mp3"; "ogg"; "bin"]%string)
  /\ (forall m,
         inferExtension (Some m) = "mp4"%string
         <-> exists pre post, m = (pre ++ "mp4" ++ post)%string)
  /\ inferExtension None = "bin"%string
  /\ inferExtension (Some EmptyString) = "bin"%string.
Proof.
  split; [|split; [|split; reflexivity]].
  - intros [m|]; simpl; [|auto 6].
    destruct (JS.truthy_str m); cbn [negb]; [|auto 6].
    destruct (JS.includes m "mp4"); [auto|].
    destruct (JS.includes m "webm"); [auto|].
    destruct (JS.includes m "mpeg"); [auto 6|].
    destruct (JS.includes m "ogg"); auto 6.
  - intros m. rewrite <- includes_iff. unfold inferExtension.
    destruct m as [|c m]; [cbn; split; discriminate|].
    cbn [JS.truthy_str negb].
    destruct (JS.includes (String c m) "mp4"); [split; reflexivity|].
    destruct (JS.includes (String c m) "webm"); [split; discriminate|].
    destruct (JS.includes (String c m) "mpeg"); [split; discriminate|].
    destruct (JS.includes (String c m) "ogg"); split; discriminate.
Qed.

Section MetadataRoute.

Context {R : Resolver}.

Local Open Scope string_scope.

(** X5.  The metadata route answers 200, 400 or 500.  A body that is not
    JSON or is null gives 500, a body without a string url or with a url
    that the validation refuses gives 400, a valid url whose metadata call
    rejects gives 500, and 200 is given exactly for a valid url whose
    metadata arrive.  The route never opens a stream, and it asks for the
    metadata only of a url that the validation has accepted. *)
Theorem X5_POST_status_and_calls (json : requestBody) :
  In (status (fst (POST json))) [200; 400; 500]%Z
  /\ (status (fst (POST json)) = 200%Z
      <-> exists u info,
            json = JsonValue (Some u) /\ validateURL u = true
            /\ getInfo u = Some info)
  /\ (status (fst (POST json)) = 400%Z
      <-> json = JsonValue None
          \/ exists u, json = JsonValue (Some u) /\ validateURL u = false)
  /\ (status (fst (POST json)) = 500%Z
      <-> json = NotJson \/ json = JsonNull
          \/ exists u, json = JsonValue (Some u) /\ validateURL u = true
                       /\ getInfo u = None)
  /\ (forall c, In c (snd (POST json)) ->
        exists u,
          json = JsonValue (Some u)
          /\ (c = ValidateURL u \/ (c = GetInfo u /\ validateURL u = true))).
Proof.
  unfold POST. destruct json as [| |[u|]].
  - cbn. repeat split; auto; try discriminate.
    + intros (u & i & H & _); discriminate.
    + intros [H|(u & H & _)]; discriminate.
    + intros c [].
  - cbn. repeat split; auto; try discriminate.
    + intros (u & i & H & _); discriminate.
    + intros [H|(u & H & _)]; discriminate.
    + intros c [].
  - destruct (validateURL u) eqn:Hv; cbn [negb].
    + destruct (getInfo u) as [info|] eqn:Hi; cbn.
      * repeat split; auto; try discriminate.
        -- intros _. exists u, info. auto.
        -- intros [H|(u' & H & Hv')]; [discriminate|].
           injection H as <-. congruence.
        -- intros [H|[H|(u' & H & _ & Hi')]]; try discriminate.
           injection H as <-. congruence.
        -- intros c [H|[H|[]]]; exists u; split; auto.
      * repeat split; auto; try discriminate.
        -- intros (u' & i & H & _ & Hi'). injection H as <-. congruence.
        -- intros [H|(u' & H & Hv')]; [discriminate|].
           injection H as <-. congruence.
        -- intros _. right. right. exists u. auto.
        -- intros c [H|[H|[]]]; exists u; split; auto.
    + cbn. repeat split; auto; try discriminate.
      * intros (u' & i & H & Hv' & _). injection H as <-. congruence.
      * intros _. right. exists u. auto.
      * intros [H|[H|(u' & H & Hv' & _)]]; try discriminate.
        injection H as <-. congruence.
      * intros c [H|[]]. exists u. split; auto.
  - cbn. repeat split; auto; try discriminate.
    + intros (u & i & H & _); discriminate.
    + intros [H|[H|(u & H & _)]]; discriminate.
    + intros c [].
Qed.

End MetadataRoute.

Lemma map_itag_video (l : list videoFormat) :
  map f_itag (map toVideoEntry l) = map itag l.
Proof.
  rewrite map_map. reflexivity.
Qed.

Lemma map_itag_audio (l : list videoFormat) :
  map f_itag (map toAudioEntry l) = map itag l.
Proof.
  rewrite map_map. reflexivity.
Qed.

Lemma NoDup_map_filter {A B : Type} (key : A -> B) (p : A -> bool)
      (l : list A) :
  NoDup (map key l) -> NoDup (map key (filter p l)).
Proof.
  induction l as [|x l IH]; simpl; intros H; [constructor|].
  inversion H as [|? ? Hnot Hrest]; subst.
  destruct (p x); simpl; [|exact (IH Hrest)].
  constructor; [|exact (IH Hrest)].
  intros Hin. apply Hnot. apply in_map_iff in Hin.
  destruct Hin as (y & Hy & Hyin). apply filter_In in Hyin.
  apply in_map_iff. exists y. split; [exact Hy | apply Hyin].
Qed.

Lemma NoDup_map_inj_on {A B : Type} (key : A -> B) (l : list A) (x y : A) :
  NoDup (map key l) -> In x l -> In y l -> key x = key y -> x = y.
Proof.
  induction l as [|z l IH]; simpl; intros H Hx Hy Hk; [contradiction|].
  inversion H as [|? ? Hnot Hrest]; subst.
  destruct Hx as [->|Hx], Hy as [->|Hy].
  - reflexivity.
  - exfalso. apply Hnot. rewrite Hk. apply in_map. exact Hy.
  - exfalso. apply Hnot. rewrite <- Hk. apply in_map. exact Hx.
  - exact (IH Hrest Hx Hy Hk).
Qed.

(** X6.  When the itags of the resolver's list are pairwise distinct, so are
    the itags of the mp4 list and those of the audio list of the metadata
    route, and no itag is in both lists: an itag names one entry of the
    lists at most. *)
Theorem X6_metadata_lists_keys (fs : list videoFormat) :
  NoDup (map itag fs) ->
  NoDup (map f_itag (mp4FormatsOf fs))
  /\ NoDup (map f_itag (audioFormatsOf fs))
  /\ (forall e1 e2,
         In e1 (mp4FormatsOf fs) -> In e2 (audioFormatsOf fs) ->
         f_itag e1 <> f_itag e2).
Proof.
  intros Hnd. split; [|split].
  - unfold mp4FormatsOf, filterFormats. cbn [String.eqb Ascii.eqb Bool.eqb].
    rewrite map_itag_video. do 2 apply NoDup_map_filter. exact Hnd.
  - unfold audioFormatsOf, filterFormats. cbn [String.eqb Ascii.eqb Bool.eqb].
    rewrite map_itag_audio. do 2 apply NoDup_map_filter. exact Hnd.
  - intros e1 e2 H1 H2 Heq.
    apply mp4FormatsOf_sources in H1.
    destruct H1 as (f1 & Hin1 & -> & Hv1 & _).
    apply audioFormatsOf_sources in H2.
    destruct H2 as (f2 & Hin2 & -> & _ & Hv2).
    simpl in Heq.
    assert (f1 = f2) by exact (NoDup_map_inj_on itag fs f1 f2 Hnd Hin1 Hin2 Heq).
    subst f2. congruence.
Qed.

Lemma X6_metadata_lists_keys_witness :
  NoDup (map f_itag (mp4FormatsOf (Sample.f720 :: Sample.threeAudios)))
  /\ NoDup (map f_itag (audioFormatsOf (Sample.f720 :: Sample.threeAudios)))
  /\ (forall e1 e2,
         In e1 (mp4FormatsOf (Sample.f720 :: Sample.threeAudios)) ->
         In e2 (audioFormatsOf (Sample.f720 :: Sample.threeAudios)) ->
         f_itag e1 <> f_itag e2).
Proof.
  apply (X6_metadata_lists_keys (Sample.f720 :: Sample.threeAudios)).
  repeat constructor; simpl; intuition discriminate.
Defined.

(* ================================================================== *)
(** ** Decimal strings                                                 *)
(* ================================================================== *)

Lemma digits_value_uint_acc (d : Decimal.uint) (acc : positive) :
  JS.digits_value (Z.pos acc) (NilEmpty.string_of_uint d)
  = Some (Z.pos (Pos.of_uint_acc d acc)).
Proof.
  revert acc.
  induction d as [|d IH|d IH|d IH|d IH|d IH|d IH|d IH|d IH|d IH|d IH];
    intros acc; cbn [NilEmpty.string_of_uint JS.digits_value Pos.of_uint_acc];
    [reflexivity|..];
    (change (JS.is_digit _) with true; cbv iota;
     rewrite <- IH; f_equal;
     match goal with
     | |- context [JS.digit_value ?c] =>
         let v := eval vm_compute in (JS.digit_value c) in
         change (JS.digit_value c) with v
     end; lia).
Qed.

Lemma digits_value_uint (d : Decimal.uint) :
  JS.digits_value 0 (NilEmpty.string_of_uint d)
  = Some (Z.of_N (Pos.of_uint d)).
Proof.
  induction d as [|d IH|d IH|d IH|d IH|d IH|d IH|d IH|d IH|d IH|d IH];
    cbn [NilEmpty.string_of_uint JS.digits_value Pos.of_uint];
    [reflexivity|exact IH|..];
    (change (JS.is_digit _) with true; cbv iota; cbn [Z.of_N];
     rewrite <- digits_value_uint_acc; f_equal).
Qed.

(** The digits that [toString] writes are read back by [Number]. *)
Lemma Number_of_toString (n : Z) :
  0 <= n <= JS.MAX_EXACT ->
  JS.Number_of_string (Page.toString n) = JS.Int n.
Proof.
  intros [Hlo Hhi]. unfold JS.Number_of_string, Page.toString.
  destruct n as [|p|p]; [reflexivity| |lia].
  cbn [Z.to_int NilZero.string_of_int].
  assert (H : NilZero.string_of_uint (Pos.to_uint p)
              = NilEmpty.string_of_uint (Pos.to_uint p)).
  { unfold NilZero.string_of_uint.
    destruct (Pos.to_uint p) eqn:Hp; try reflexivity.
    exfalso. exact (DecimalPos.Unsigned.to_uint_nonnil p Hp). }
  rewrite H, digits_value_uint, DecimalPos.Unsigned.of_to. cbn [Z.of_N].
  destruct (Z.leb_spec (Z.pos p) JS.MAX_EXACT); [reflexivity | lia].
Qed.

(* ================================================================== *)
(** ** More on the download loop of the client                         *)
(* ================================================================== *)

Lemma chunks_fold (contentLength : JS.num)
      (reads : list (option (list Byte.byte))) (st : Client.relay) :
  Client.chunks (fold_left (Client.onRead contentLength) reads st)
  = Client.chunks st
    ++ flat_map (fun value => match value with Some v => [v] | None => [] end)
                reads.
Proof.
  revert st. induction reads as [|value reads IH]; intros st; simpl.
  - rewrite app_nil_r. reflexivity.
  - rewrite IH. destruct value as [v|]; simpl; [|reflexivity].
    rewrite <- app_assoc. reflexivity.
Qed.

Lemma bytesIn_concat (reads : list (option (list Byte.byte))) :
  Client.bytesIn reads
  = Z.of_nat
      (List.length
         (List.concat (flat_map (fun value =>
                              match value with Some v => [v] | None => [] end)
                           reads))).
Proof.
  induction reads as [|[v|] reads IH]; simpl; [reflexivity| |exact IH].
  rewrite length_app, Nat2Z.inj_add, IH. reflexivity.
Qed.

(** X7.  Whatever the headers of the response, the transfer keeps the
    chunks it has read in the order of their arrival, reads without a value
    being skipped, and its byte counter ends as the size of the blob that
    the chunks make when put end to end. *)
Theorem X7_relay_keeps_bytes
        (responseHeaders : list (string * string))
        (reads : list (option (list Byte.byte))) :
  Client.chunks (Client.handleDownload responseHeaders reads)
  = flat_map (fun value => match value with Some v => [v] | None => [] end)
             reads
  /\ Client.received (Client.handleDownload responseHeaders reads)
     = Z.of_nat
         (List.length
            (List.concat (Client.chunks
                       (Client.handleDownload responseHeaders reads)))).
Proof.
  unfold Client.handleDownload, Client.readLoop.
  cbn [Client.chunks Client.received].
  rewrite chunks_fold, received_fold. cbn [Client.chunks Client.received].
  split; [reflexivity|]. rewrite bytesIn_concat. reflexivity.
Qed.

Lemma progressLog_fold_falsy (contentLength : JS.num)
      (reads : list (option (list Byte.byte))) (st : Client.relay) :
  JS.truthy contentLength = false ->
  Client.progressLog (fold_left (Client.onRead contentLength) reads st)
  = Client.progressLog st.
Proof.
  intros Hf. revert st.
  induction reads as [|value reads IH]; intros st; simpl; [reflexivity|].
  rewrite IH. destruct value as [v|]; simpl; [|reflexivity].
  destruct contentLength as [total|]; [|reflexivity].
  rewrite Hf. reflexivity.
Qed.

(** X8.  When the response has no Content-Length header, under any
    spelling of the name, or has one whose value is written with zeros only
    (or is empty), the transfer shows no progress while it reads, however
    many chunks arrive: the progress is set to 0 at the start and to 100 at
    the end, and to nothing in between. *)
Theorem X8_no_length_no_progress
        (responseHeaders : list (string * string))
        (reads : list (option (list Byte.byte))) :
  Client.headersGet responseHeaders "Content-Length" = None
  \/ (exists len,
        Client.headersGet responseHeaders "Content-Length" = Some len
        /\ JS.digits_value 0 len = Some 0) ->
  Client.progressLog (Client.handleDownload responseHeaders reads) = [0; 100].
Proof.
  intros Hlen.
  assert (Hf : JS.truthy (Client.contentLengthOf responseHeaders) = false).
  { unfold Client.contentLengthOf.
    destruct Hlen as [->|(len & -> & Hzero)]; [reflexivity|].
    unfold JS.Number_of_string. rewrite Hzero. reflexivity. }
  unfold Client.handleDownload, Client.readLoop.
  cbn [Client.progressLog]. rewrite (progressLog_fold_falsy _ _ _ Hf).
  reflexivity.
Qed.

Lemma X8_no_length_no_progress_witness :
  Client.progressLog
    (Client.handleDownload [("content-type", "video/mp4");
                            ("content-length", "0")]%string
                           [Some [Byte.x00; Byte.x01]; Some [Byte.x02]])
  = [0; 100].
Proof.
  apply (X8_no_length_no_progress
           [("content-type", "video/mp4"); ("content-length", "0")]%string
           [Some [Byte.x00; Byte.x01]; Some [Byte.x02]]).
  right. exists "0"%string. split; reflexivity.
Defined.

(* ================================================================== *)
(** ** The format the page offers for download                         *)
(* ================================================================== *)

Lemma currentFormat_member (available : list Format)
      (selectedItag : option JS.num) (e : Format) :
  Page.currentFormat available selectedItag = Some e -> In e available.
Proof.
  destruct available as [|first rest]; [discriminate|].
  unfold Page.currentFormat.
  destruct selectedItag as [n|].
  2: { intros H. injection H as <-. left. reflexivity. }
  destruct (JS.truthy n).
  2: { intros H. injection H as <-. left. reflexivity. }
  intros H. apply orElse_Some in H. destruct H as [H|[_ H]].
  - apply find_some in H. apply H.
  - injection H as <-. left. reflexivity.
Qed.

(** X9.  The current format of the page is none exactly when the list of
    available formats is empty, and otherwise it is an entry of that list:
    the first entry with the selected itag when the selected itag is a
    number other than 0 that some entry carries, the first entry of the
    list in every other case. *)
Theorem X9_currentFormat_cases
        (available : list Format) (selectedItag : option JS.num) :
  (Page.currentFormat available selectedItag = None <-> available = [])
  /\ (forall e, Page.currentFormat available selectedItag = Some e ->
                In e available)
  /\ (forall n e,
         selectedItag = Some (JS.Int n) -> n <> 0 ->
         find (fun format => f_itag format =? n) available = Some e ->
         Page.currentFormat available selectedItag = Some e)
  /\ ((forall n, selectedItag = Some (JS.Int n) ->
                 n = 0 \/ find (fun format => f_itag format =? n) available
                          = None) ->
      Page.currentFormat available selectedItag = hd_error available).
Proof.
  destruct available as [|first rest].
  - cbn. repeat split; auto; try discriminate.
  - split; [|split; [|split]].
    + unfold Page.currentFormat.
      destruct selectedItag as [n|]; [|split; discriminate].
      destruct (JS.truthy n); [|split; discriminate].
      destruct (find _ (first :: rest)); cbn; split; discriminate.
    + intros e. unfold Page.currentFormat.
      destruct selectedItag as [n|].
      2: { intros H. injection H as <-. left. reflexivity. }
      destruct (JS.truthy n).
      2: { intros H. injection H as <-. left. reflexivity. }
      intros H. apply orElse_Some in H. destruct H as [H|[_ H]].
      * apply find_some in H. apply H.
      * injection H as <-. left. reflexivity.
    + intros n e -> Hn Hfind. unfold Page.currentFormat, JS.truthy.
      destruct (Z.eqb_spec n 0); [contradiction|]. cbn [negb].
      cbn [JS.strict_eq]. rewrite Hfind. reflexivity.
    + intros H. unfold Page.currentFormat.
      destruct selectedItag as [[n|]|]; try reflexivity.
      unfold JS.truthy. destruct (Z.eqb_spec n 0); [reflexivity|].
      cbn [negb JS.strict_eq].
      destruct (H n eq_refl) as [H0|Hnone]; [contradiction|].
      rewrite Hnone. reflexivity.
Qed.

Lemma currentFormat_firstItag (available : list Format) :
  Page.currentFormat available (Page.firstItag available)
  = hd_error available.
Proof.
  destruct available as [|first rest]; [reflexivity|].
  unfold Page.currentFormat, Page.firstItag.
  destruct (JS.truthy (JS.Int (f_itag first))); [|reflexivity].
  cbn [find JS.strict_eq]. rewrite Z.eqb_refl. reflexivity.
Qed.

(** X10.  Right after the metadata have arrived, a page whose type is video
    offers the first entry of the mp4 list; and right after the type has
    been switched with its radio button, the page offers the first entry of
    the list of the new type (none when that list is empty). *)
Theorem X10_offered_format_after_load_and_switch (info : VideoInfo) :
  Page.currentFormat (Page.availableFormats (Some info) "video")
                     (Page.loadedItag info)
  = hd_error (mp4Formats info)
  /\ (forall type,
         Page.currentFormat (Page.availableFormats (Some info) type)
                            (Page.switchedItag info type)
         = hd_error (Page.availableFormats (Some info) type)).
Proof.
  split.
  - unfold Page.loadedItag. cbn [Page.availableFormats String.eqb Ascii.eqb Bool.eqb].
    destruct (mp4Formats info) as [|first rest] eqn:Hmp4; [reflexivity|].
    cbn [Page.firstItag JS.orElse].
    exact (currentFormat_firstItag (first :: rest)).
  - intros type. unfold Page.switchedItag. apply currentFormat_firstItag.
Qed.

(* ================================================================== *)
(** ** From the page to the download route                             *)
(* ================================================================== *)

Section PageToRoute.

Local Open Scope string_scope.

Lemma query_itag_read_back (u selectedType : string) (e : Format) :
  (0 < f_itag e <= JS.MAX_EXACT)%Z ->
  targetItag (get (Page.downloadParams u selectedType (Some e)) "itag")
  = Some (JS.Int (f_itag e)).
Proof.
  intros He. unfold Page.downloadParams, JS.truthy.
  destruct (Z.eqb_spec (f_itag e) 0) as [E|_]; [lia|].
  cbn [negb app get String.eqb Ascii.eqb Bool.eqb].
  unfold targetItag. rewrite Number_of_toString by lia.
  destruct (Page.toString (f_itag e)) eqn:Hs; [|reflexivity].
  exfalso.
  assert (H : JS.Number_of_string (Page.toString (f_itag e))
              = JS.Int (f_itag e)) by (apply Number_of_toString; lia).
  rewrite Hs in H. cbn in H. injection H as H. lia.
Qed.

(** X11.  The download route reads from the query that the page builds the
    url and the type the page has put there; when the offered format has an
    itag between 1 and [2^53] it reads that very itag as its target, and
    when the page offers no format or a format of itag 0 the query has no
    itag and the route has no target. *)
Theorem X11_query_read_back
        (u selectedType : string) (current : option Format) :
  get (Page.downloadParams u selectedType current) "url" = Some u
  /\ get (Page.downloadParams u selectedType current) "type"
     = Some selectedType
  /\ (forall e, current = Some e -> (0 < f_itag e <= JS.MAX_EXACT)%Z ->
        targetItag (get (Page.downloadParams u selectedType current) "itag")
        = Some (JS.Int (f_itag e)))
  /\ (current = None \/ (exists e, current = Some e /\ f_itag e = 0%Z) ->
        targetItag (get (Page.downloadParams u selectedType current) "itag")
        = None).
Proof.
  split; [reflexivity|]. split; [reflexivity|]. split.
  - intros e -> He. exact (query_itag_read_back u selectedType e He).
  - intros [->|(e & -> & He)]; [reflexivity|].
    unfold Page.downloadParams. rewrite He. reflexivity.
Qed.

Context {R : Resolver} {N : FileNames}.

Lemma find_by_itag_unique (fs : list videoFormat) (f : videoFormat) :
  NoDup (map itag fs) -> In f fs ->
  find (fun g => (itag g =? itag f)%Z) fs = Some f.
Proof.
  intros Hnd Hin.
  destruct (find (fun g => (itag g =? itag f)%Z) fs) as [g|] eqn:Hfind.
  - apply find_some in Hfind. destruct Hfind as [Hg Heq].
    apply Z.eqb_eq in Heq.
    rewrite (NoDup_map_inj_on itag fs g f Hnd Hg Hin Heq). reflexivity.
  - exfalso. pose proof (find_none _ _ Hfind f Hin) as H.
    cbv beta in H. rewrite Z.eqb_refl in H. discriminate.
Qed.

(** X12.  Suppose the resolver accepts a url and returns for it a format
    list with pairwise distinct itags, the page shows the lists that the
    metadata route has made of it, and the format the page offers has an
    itag between 1 and [2^53].  Then the download request of the page makes
    the download route select the very format of the resolver's list that
    the offered entry was made from, whatever the type of the request, and
    the stream the route opens is opened for the itag of that format. *)
Theorem X12_page_request_selects_offered_format
        (u selectedType : string) (rinfo : videoInfo) (vinfo : VideoInfo)
        (selectedItag : option JS.num) (e : Format) :
  validateURL u = true ->
  getInfo u = Some rinfo ->
  NoDup (map itag (formats rinfo)) ->
  payload (fst (POST (JsonValue (Some u)))) = InfoJson vinfo ->
  Page.currentFormat (Page.availableFormats (Some vinfo) selectedType)
                     selectedItag = Some e ->
  (0 < f_itag e <= JS.MAX_EXACT)%Z ->
  exists f,
    In f (formats rinfo)
    /\ (e = toVideoEntry f \/ e = toAudioEntry f)
    /\ selectedFormat (formats rinfo) selectedType
         (targetItag
            (get (Page.downloadParams u selectedType (Some e)) "itag"))
       = Some f
    /\ snd (GET (Page.downloadParams u selectedType (Some e)))
       = [ValidateURL u; GetInfo u;
          OpenStream u (itag f)
            (if selectedType =? "audio"
             then "audioonly" else "videoandaudio")].
Proof.
  intros Hv Hi Hnd Hpost Hcur Hitag.
  assert (Hlists : mp4Formats vinfo = mp4FormatsOf (formats rinfo)
                   /\ audioFormats vinfo = audioFormatsOf (formats rinfo)).
  { unfold POST in Hpost. rewrite Hv, Hi in Hpost. cbn in Hpost.
    injection Hpost as <-. split; reflexivity. }
  destruct Hlists as [Hmp4 Haudio].
  assert (Hin : In e (Page.availableFormats (Some vinfo) selectedType)).
  { exact (currentFormat_member _ _ _ Hcur). }
  assert (Hsrc : exists f, In f (formats rinfo)
                           /\ (e = toVideoEntry f \/ e = toAudioEntry f)).
  { unfold Page.availableFormats in Hin.
    destruct (selectedType =? "video").
    - rewrite Hmp4 in Hin. apply mp4FormatsOf_sources in Hin.
      destruct Hin as (f & Hf & He & _). exists f. auto.
    - rewrite Haudio in Hin. apply audioFormatsOf_sources in Hin.
      destruct Hin as (f & Hf & He & _). exists f. auto. }
  destruct Hsrc as (f & Hf & He).
  assert (Hid : f_itag e = itag f).
  { destruct He as [->| ->]; reflexivity. }
  assert (Hsel : selectedFormat (formats rinfo) selectedType
                   (targetItag
                      (get (Page.downloadParams u selectedType (Some e))
                           "itag")) = Some f).
  { rewrite (query_itag_read_back u selectedType e Hitag).
    unfold selectedFormat.
    rewrite findByItag_int by lia. rewrite Hid.
    rewrite (find_by_itag_unique _ _ Hnd Hf). reflexivity. }
  exists f. split; [exact Hf|]. split; [exact He|]. split; [exact Hsel|].
  unfold GET, GET_parsed.
  assert (Hurl : get (Page.downloadParams u selectedType (Some e)) "url"
                 = Some u) by reflexivity.
  assert (Htype : get (Page.downloadParams u selectedType (Some e)) "type"
                  = Some selectedType) by reflexivity.
  rewrite Hurl, Htype, Hv, Hi. cbn [negb]. rewrite Hsel.
  destruct (ytdl u (itag f) _); reflexivity.
Qed.

End PageToRoute.

Lemma X12_page_request_selects_offered_format_witness :
  exists f,
    In f Sample.threeVideos
    /\ (toVideoEntry Sample.f1080 = toVideoEntry f
        \/ toVideoEntry Sample.f1080 = toAudioEntry f)
    /\ selectedFormat Sample.threeVideos "video"
         (targetItag
            (get (Page.downloadParams Sample.goodUrl "video"
                    (Some (toVideoEntry Sample.f1080))) "itag"))
       = Some f
    /\ snd (@GET (Sample.resolver Sample.threeVideos) Sample.names
                 (Page.downloadParams Sample.goodUrl "video"
                    (Some (toVideoEntry Sample.f1080))))
       = [ValidateURL Sample.goodUrl; GetInfo Sample.goodUrl;
          OpenStream Sample.goodUrl (itag f) "videoandaudio"].
Proof.
  apply (@X12_page_request_selects_offered_format
           (Sample.resolver Sample.threeVideos) Sample.names
           Sample.goodUrl "video"
           {| formats := Sample.threeVideos; videoDetails := Sample.details |}
           {| v_title := "Sample clip";
              v_author := "Sample author";
              v_thumbnailUrl := Some "https://img.example/large.jpg"%string;
              v_lengthSeconds := JS.Int 212;
              mp4Formats := mp4FormatsOf Sample.threeVideos;
              audioFormats := audioFormatsOf Sample.threeVideos |}
           (Some (JS.Int 137)) (toVideoEntry Sample.f1080)).
  - reflexivity.
  - reflexivity.
  - repeat constructor; simpl; intuition discriminate.
  - reflexivity.
  - reflexivity.
  - vm_compute. split; [reflexivity | discriminate].
Defined.

(* ================================================================== *)
(** ** The display of a duration                                       *)
(* ================================================================== *)

Lemma padStart2_below_60 (x : Z) :
  0 <= x < 60 ->
  String.length (Page.padStart2 (Page.toString x)) = 2%nat
  /\ JS.Number_of_string (Page.padStart2 (Page.toString x)) = JS.Int x.
Proof.
  intros Hx.
  assert (Hall :
            forallb
              (fun k =>
                 Nat.eqb (String.length
                            (Page.padStart2 (Page.toString (Z.of_nat k)))) 2
                 && match JS.Number_of_string
                            (Page.padStart2 (Page.toString (Z.of_nat k))) with
                    | JS.Int v => v =? Z.of_nat k
                    | JS.NaN => false
                    end)
              (seq 0 60) = true) by (vm_compute; reflexivity).
  rewrite forallb_forall in Hall.
  specialize (Hall (Z.to_nat x)).
  rewrite Z2Nat.id in Hall by lia.
  assert (Hin : In (Z.to_nat x) (seq 0 60)) by (apply in_seq; lia).
  apply Hall in Hin. apply andb_prop in Hin. destruct Hin as [Hlen Hnum].
  split; [apply Nat.eqb_eq; exact Hlen|].
  destruct (JS.Number_of_string (Page.padStart2 (Page.toString x)));
    [|discriminate].
  apply Z.eqb_eq in Hnum. congruence.
Qed.

(** X13.  A duration of [n] whole seconds, [n] not negative, is shown as
    hours, minutes and seconds that add up to [n]: minutes and seconds are
    below 60, the seconds field and, when hours are shown, the minutes field
    are two characters wide, and every field reads back as its number.
    Hours are shown only from 3600 seconds on; below, the display is minutes
    and two-digit seconds. *)
Theorem X13_formatDuration_fields (n : Z) :
  0 <= n <= JS.MAX_EXACT ->
  exists (h m s : Z) (mm ss : string),
    n = 3600 * h + 60 * m + s
    /\ 0 <= h /\ 0 <= m < 60 /\ 0 <= s < 60
    /\ String.length mm = 2%nat /\ String.length ss = 2%nat
    /\ JS.Number_of_string (Page.toString h) = JS.Int h
    /\ JS.Number_of_string (Page.toString m) = JS.Int m
    /\ JS.Number_of_string mm = JS.Int m
    /\ JS.Number_of_string ss = JS.Int s
    /\ Page.formatDuration (JS.Int n)
       = (if (0 <? h)%Z
          then Page.toString h ++ ":" ++ mm ++ ":" ++ ss
          else Page.toString m ++ ":" ++ ss)%string
    /\ (0 <? h) = (3600 <=? n).
Proof.
  intros Hn. unfold JS.MAX_EXACT in Hn.
  set (h := n / 3600). set (m := Z.rem n 3600 / 60). set (s := Z.rem n 60).
  assert (Hrem1 : Z.rem n 3600 = n mod 3600) by (apply Z.rem_mod_nonneg; lia).
  assert (Hrem2 : Z.rem n 60 = n mod 60) by (apply Z.rem_mod_nonneg; lia).
  assert (Hfacts : n = 3600 * h + 60 * m + s
                   /\ 0 <= h /\ 0 <= m < 60 /\ 0 <= s < 60
                   /\ h <= n /\ (0 < h <-> 3600 <= n)).
  { subst h m s. rewrite Hrem1, Hrem2.
    pose proof (Z.div_mod n 3600 ltac:(lia)) as E1.
    pose proof (Z.mod_pos_bound n 3600 ltac:(lia)) as B1.
    pose proof (Z.div_mod (n mod 3600) 60 ltac:(lia)) as E2.
    pose proof (Z.mod_pos_bound (n mod 3600) 60 ltac:(lia)) as B2.
    pose proof (Z.div_mod n 60 ltac:(lia)) as E3.
    pose proof (Z.mod_pos_bound n 60 ltac:(lia)) as B3.
    assert (Hmm : (n mod 3600) mod 60 = n mod 60).
    { apply (Zmod_unique n 60 (60 * (n / 3600) + (n mod 3600) / 60)); lia. }
    rewrite Hmm in *.
    repeat split; try lia. }
  destruct Hfacts as (Hsum & Hh & Hm & Hs & Hhn & Hh3600).
  destruct (padStart2_below_60 m Hm) as [Hlm Hnm].
  destruct (padStart2_below_60 s Hs) as [Hls Hns].
  exists h, m, s, (Page.padStart2 (Page.toString m)),
    (Page.padStart2 (Page.toString s)).
  split; [exact Hsum|]. split; [exact Hh|]. split; [exact Hm|].
  split; [exact Hs|]. split; [exact Hlm|]. split; [exact Hls|].
  split; [apply Number_of_toString; unfold JS.MAX_EXACT; lia|].
  split; [apply Number_of_toString; unfold JS.MAX_EXACT; lia|].
  split; [exact Hnm|]. split; [exact Hns|]. split; [reflexivity|].
  destruct (Z.ltb_spec 0 h), (Z.leb_spec 3600 n); lia || reflexivity.
Qed.

Lemma X13_formatDuration_fields_witness :
  exists (h m s : Z) (mm ss : string),
    3725 = 3600 * h + 60 * m + s
    /\ 0 <= h /\ 0 <= m < 60 /\ 0 <= s < 60
    /\ String.length mm = 2%nat /\ String.length ss = 2%nat
    /\ JS.Number_of_string (Page.toString h) = JS.Int h
    /\ JS.Number_of_string (Page.toString m) = JS.Int m
    /\ JS.Number_of_string mm = JS.Int m
    /\ JS.Number_of_string ss = JS.Int s
    /\ Page.formatDuration (JS.Int 3725)
       = (if (0 <? h)%Z
          then Page.toString h ++ ":" ++ mm ++ ":" ++ ss
          else Page.toString m ++ ":" ++ ss)%string
    /\ (0 <? h) = (3600 <=? 3725).
Proof.
  apply (X13_formatDuration_fields 3725).
  vm_compute. split; discriminate.
Defined.

(* ================================================================== *)
(** ** Further properties of the two routes                            *)
(* ================================================================== *)

Section RouteDetails.

Context {R : Resolver} {N : FileNames}.

Local Open Scope string_scope.

(** X14.  A 200 response of the download route names no header twice: its
    header names are Content-Type and Content-Disposition, followed by
    Content-Length or by nothing.  The attachment name in Content-Disposition
    is, between double quotes, the sanitised title of the video, a dot and
    one of the extensions mp4, webm, mp3, ogg, bin. *)
Theorem X14_download_response_headers (params : list (string * string)) :
  status (fst (GET params)) = 200%Z ->
  NoDup (map fst (headers (fst (GET params))))
  /\ (map fst (headers (fst (GET params)))
      = ["Content-Type"; "Content-Disposition"]
      \/ map fst (headers (fst (GET params)))
         = ["Content-Type"; "Content-Disposition"; "Content-Length"])
  /\ exists u info extension,
       get params "url" = Some u
       /\ getInfo u = Some info
       /\ In extension ["mp4"; "webm"; "mp3"; "ogg"; "bin"]
       /\ get (headers (fst (GET params))) "Content-Disposition"
          = Some ("attachment; filename=" ++ JS.dquote
                  ++ (toSafeFileName (title (videoDetails info))
                      ++ "." ++ extension)
                  ++ JS.dquote).
Proof.
  unfold GET, GET_parsed.
  destruct (get params "url") as [u|]; [|discriminate].
  destruct (validateURL u); cbn [negb]; [|discriminate].
  destruct (getInfo u) as [info|] eqn:Hi; [|discriminate].
  destruct (selectedFormat _ _ _) as [sel|]; [|discriminate].
  destruct (ytdl u (itag sel) _) as [w|]; [|discriminate].
  intros _. cbn [fst headers]. unfold downloadHeaders.
  assert (Hext : In (inferExtension (mimeType sel))
                    ["mp4"; "webm"; "mp3"; "ogg"; "bin"]).
  { destruct (mimeType sel) as [m|]; simpl; [|auto 6].
    destruct (JS.truthy_str m); cbn [negb]; [|auto 6].
    destruct (JS.includes m "mp4"); [auto|].
    destruct (JS.includes m "webm"); [auto|].
    destruct (JS.includes m "mpeg"); [auto 6|].
    destruct (JS.includes m "ogg"); auto 6. }
  split; [|split].
  - destruct (contentLength sel) as [len|]; [destruct (JS.truthy_str len)|];
      cbn; repeat constructor; simpl; intuition discriminate.
  - destruct (contentLength sel) as [len|]; [destruct (JS.truthy_str len)|];
      cbn; auto.
  - exists u, info, (inferExtension (mimeType sel)).
    split; [reflexivity|]. split; [exact Hi|]. split; [exact Hext|].
    reflexivity.
Qed.

(** X15.  On success the metadata route returns, as thumbnail, the last url
    of the resolver's thumbnail list, and no thumbnail when that list is
    empty; the two format lists it returns are those made of the resolver's
    formats. *)
Theorem X15_metadata_payload (u : string) (rinfo : videoInfo) :
  validateURL u = true ->
  getInfo u = Some rinfo ->
  exists vinfo,
    payload (fst (POST (JsonValue (Some u)))) = InfoJson vinfo
    /\ v_title vinfo = title (videoDetails rinfo)
    /\ mp4Formats vinfo = mp4FormatsOf (formats rinfo)
    /\ audioFormats vinfo = audioFormatsOf (formats rinfo)
    /\ (thumbnails (videoDetails rinfo) = [] -> v_thumbnailUrl vinfo = None)
    /\ (thumbnails (videoDetails rinfo) <> [] ->
        v_thumbnailUrl vinfo
        = Some (last (thumbnails (videoDetails rinfo)) ""))
    /\ (forall t, v_thumbnailUrl vinfo = Some t ->
                  In t (thumbnails (videoDetails rinfo))).
Proof.
  intros Hv Hi. unfold POST. rewrite Hv, Hi. cbn [negb fst payload].
  eexists. split; [reflexivity|]. cbn.
  split; [reflexivity|]. split; [reflexivity|]. split; [reflexivity|].
  assert (Hlast : forall (l : list string),
             l <> [] ->
             nth_error l (List.length l - 1) = Some (last l "")).
  { induction l as [|x l IH]; [congruence|]. intros _.
    destruct l as [|y l]; [reflexivity|].
    specialize (IH ltac:(discriminate)).
    replace (List.length (x :: y :: l) - 1)%nat
      with (S (List.length (y :: l) - 1)) by (simpl; lia).
    cbn [nth_error]. rewrite IH. reflexivity. }
  split; [|split].
  - intros ->. reflexivity.
  - exact (Hlast _).
  - intros t Ht. apply nth_error_In in Ht. exact Ht.
Qed.

End RouteDetails.

Lemma X14_download_response_headers_witness :
  NoDup (map fst (headers (fst (@GET (Sample.resolver Sample.threeVideos)
                                     Sample.names
                                     [("url", Sample.goodUrl)]%string)))).
Proof.
  apply (@X14_download_response_headers (Sample.resolver Sample.threeVideos)
           Sample.names [("url", Sample.goodUrl)]%string).
  reflexivity.
Defined.

Lemma X15_metadata_payload_witness :
  exists vinfo,
    payload (fst (@POST (Sample.resolver Sample.threeVideos)
                        (JsonValue (Some Sample.goodUrl))))
    = InfoJson vinfo
    /\ v_title vinfo = "Sample clip"%string
    /\ mp4Formats vinfo = mp4FormatsOf Sample.threeVideos
    /\ audioFormats vinfo = audioFormatsOf Sample.threeVideos
    /\ (thumbnails Sample.details = [] -> v_thumbnailUrl vinfo = None)
    /\ (thumbnails Sample.details <> [] ->
        v_thumbnailUrl vinfo
        = Some (last (thumbnails Sample.details) ""%string))
    /\ (forall t, v_thumbnailUrl vinfo = Some t ->
                  In t (thumbnails Sample.details)).
Proof.
  apply (@X15_metadata_payload (Sample.resolver Sample.threeVideos)
           Sample.goodUrl
           {| formats := Sample.threeVideos; videoDetails := Sample.details |}).
  - reflexivity.
  - reflexivity.
Defined.

(** X16.  For a kind other than audio and without a usable explicit id, a
    format outside the mp4 container is selected only when the list has no
    combined format in the mp4 container at all, and it is then the first
    format of the list with both tracks; otherwise the selection is a
    combined mp4 format, whatever the quality of the others. *)
Theorem X16_mp4_preferred
        (fs : list videoFormat) (type : string) (target : option JS.num)
        (f : videoFormat) :
  type <> "audio"%string ->
  findByItag fs target = None ->
  selectedFormat fs type target = Some f ->
  isCombinedMp4 f = true
  \/ (filter isCombinedMp4 fs = [] /\ find isCombined fs = Some f).
Proof.
  intros Htype Hid Hsel.
  rewrite (selectedFormat_default _ _ _ Hid) in Hsel.
  unfold defaultFormat in Hsel.
  destruct (String.eqb_spec type "audio"); [contradiction|].
  apply orElse_Some in Hsel. destruct Hsel as [Hhd|[Hnone Hfind]].
  - left. apply hd_error_In in Hhd. unfold preferredVideo in Hhd.
    apply sort_In in Hhd. apply filter_In in Hhd. apply Hhd.
  - right. split; [|exact Hfind].
    unfold preferredVideo in Hnone.
    destruct (JS.sort _ (filter isCombinedMp4 fs)) as [|x l] eqn:Hs;
      [|discriminate].
    destruct (filter isCombinedMp4 fs) as [|y l'] eqn:Hf; [reflexivity|].
    exfalso. assert (Hy : In y (JS.sort
                                 (fun a b => JS.sub (quality b) (quality a))
                                 (y :: l'))).
    { apply sort_In. left. reflexivity. }
    rewrite Hs in Hy. exact Hy.
Qed.

Lemma X16_mp4_preferred_witness :
  isCombinedMp4 Sample.f720 = true
  \/ (filter isCombinedMp4 [Sample.w360; Sample.f720] = []
      /\ find isCombined [Sample.w360; Sample.f720] = Some Sample.f720).
Proof.
  apply (X16_mp4_preferred [Sample.w360; Sample.f720] "video" None
                           Sample.f720).
  - discriminate.
  - reflexivity.
  - reflexivity.
Defined.
